(** * Invoice extraction, VAT reconciliation and ledger export

    A shallow embedding of the extraction-reconciliation-export pipeline of
    the invoice scanner backend:

    - [backend/app/services/kdv_calculator.py]      (module [KDVCalculator])
    - [backend/app/services/ai_extraction_service.py] (module [AIExtractionService])
    - [backend/app/services/parasut_integration.py]  (module [ParasutClient])
    - [backend/app/api/v1/invoices.py]               (module [Invoices])

    Modelling conventions.

    - A Python [Decimal] is an exact rational number ([Q]); Python compares
      decimals numerically, which is [Qeq] ([==]).  The arithmetic context of
      the [decimal] module (28 significant digits) is not modelled: sums,
      products and quotients are exact, which agrees with Python as long as
      no intermediate value needs more than 28 digits.
    - [x.quantize(Decimal("0.01"), rounding=ROUND_HALF_UP)] is
      [quantize_cents x].
    - Python exceptions are the [Err] results of the [exc] monad; a
      [try/except] is a [match] on the result.
    - Attribute access on an object goes through an explicit attribute table,
      so that a name the class does not define raises [AttributeError] as it
      does in Python.
    - JSON documents and dictionaries are finite maps ([gmap string json]).
    - Calls to the outside world (the language model, the ledger's HTTP
      endpoint, the clock) are parameters of the functions that make them.
    - Message texts are kept as the source writes them, without the Turkish
      diacritics and with the placeholders of formatted strings left in
      braces. *)

From Stdlib Require Import QArith Qround Qabs Lqa Lia ZArith List String Sorted.
From stdpp Require Import gmap strings.

Set Warnings "-register-all".

Open Scope Q_scope.

(** Arithmetic on rationals is reasoned about, not unfolded. *)
#[global] Arguments Qplus : simpl never.
#[global] Arguments Qminus : simpl never.
#[global] Arguments Qmult : simpl never.
#[global] Arguments Qdiv : simpl never.
#[global] Arguments Qinv : simpl never.
#[global] Arguments Qopp : simpl never.
#[global] Arguments Qabs : simpl never.
#[global] Arguments Qle_bool : simpl never.
#[global] Arguments Qeq_bool : simpl never.
#[global] Arguments Qfloor : simpl never.
#[global] Arguments inject_Z : simpl never.

(** ** Exceptions *)

Inductive exn :=
| ValueError (msg : string)
| AttributeError (obj attr : string)
| TypeError (msg : string)
| IndexError (msg : string)
| InvalidOperation (msg : string)
| DivisionByZero
| RuntimeError (msg : string)
| RequestError (msg : string)
| ParasutAPIError (msg : string)
| HTTPException (status_code : Z) (detail : string).

Inductive exc (A : Type) :=
| Ok (a : A)
| Err (e : exn).
Arguments Ok {A} a.
Arguments Err {A} e.

(** Sequencing: the first exception ends the computation
    (stdpp's notation [x ← m; k]). *)
#[global] Instance exc_ret : MRet exc := fun A a => Ok a.
#[global] Instance exc_bind : MBind exc := fun A B k m =>
  match m with
  | Ok a => k a
  | Err e => Err e
  end.

(** ** Decimal arithmetic *)

(** Nearest integer, ties away from zero ([ROUND_HALF_UP]). *)
Definition round_half_up (x : Q) : Z :=
  if Qle_bool 0 x then Qfloor (x + (1 # 2)) else (- Qfloor (- x + (1 # 2)))%Z.

(** [x.quantize(Decimal("0.01"), rounding=ROUND_HALF_UP)] *)
Definition quantize_cents (x : Q) : Q :=
  inject_Z (round_half_up (x * 100)) / 100.

Definition Qlt_bool (x y : Q) : bool := negb (Qle_bool y x).


(** ** [kdv_calculator.py] *)

Module KDVCalculator.

(** The [suggested_values] dictionary: its four keys are fixed. *)
Record Suggested := {
  sug_kdv_amount : Q;
  sug_total : Q;
  sug_subtotal : Q;
  sug_kdv_rate : Q
}.

(** The parts of a validation message, with the numbers they print. *)
Inductive error_part :=
| TotalMismatch (subtotal kdv_amount calculated_total total total_diff : Q)
| KdvMismatch (expected_kdv kdv_amount kdv_diff : Q)
| ExpectedTotalMismatch (expected_total total expected_total_diff : Q).

Inductive message :=
| NegativeSubtotal      (* "KDV hariç tutar negatif olamaz" *)
| NegativeAmounts       (* "Tutarlar negatif olamaz" *)
| NegativeTotal         (* "Toplam tutar negatif olamaz" *)
| Mismatch (parts : list error_part)    (* "; ".join(error_parts) *)
| CalculationFailure (e : exn)          (* "Hesaplama hatası: {str(e)}" *)
| ValidationFailure (e : exn).          (* "Doğrulama hatası: {str(e)}" *)

Record KDVResult := {
  is_valid : bool;
  subtotal : Q;
  kdv_amount : Q;
  total : Q;
  kdv_rate : Q;
  suggested_values : option Suggested;
  error_message : option message
}.

(** [KDV_RATES], keys in insertion order. *)
Definition KDV_RATES : list (Q * list string) :=
  [ (1,  ["Gazete, dergi, kitap ve benzeri yayinlar"; "Egitim ve ogretim hizmetleri"]%string);
    (10, ["Konut kiralari"; "Gida maddeleri (temel)"; "Ilac ve medikal malzemeler";
          "Kitap, gazete, dergi"; "Konut teslimleri"]%string);
    (20, ["Genel mal ve hizmetler"; "Elektronik esya"; "Giyim"; "Mobilya";
          "Danismanlik hizmetleri"; "Yazilim hizmetleri"]%string) ].

Definition TOLERANCE : Q := 1 # 100.

Definition get_valid_rates : list Q := map fst KDV_RATES.


(** [a / b] on decimals: a zero divisor raises ([DivisionByZero], or
    [InvalidOperation] for [0 / 0]).  A division by the literal [100] is
    written [/ 100]. *)
Definition decimal_div (a b : Q) : exc Q :=
  if Qeq_bool b 0 then
    if Qeq_bool a 0 then Err (InvalidOperation "DivisionUndefined")
    else Err DivisionByZero
  else Ok (a / b).

(** [calculate].  No statement of its [try] block raises on decimals, so
    its [except] branch is left out. *)
Definition calculate (subtotal rate : Q) : KDVResult :=
  if Qlt_bool subtotal 0 then
    {| is_valid := false; subtotal := subtotal; kdv_amount := 0;
       total := subtotal; kdv_rate := rate;
       suggested_values := None; error_message := Some NegativeSubtotal |}
  else
    let kdv_amount := quantize_cents (subtotal * rate / 100) in
    let total := subtotal + kdv_amount in
    {| is_valid := true; subtotal := subtotal; kdv_amount := kdv_amount;
       total := total; kdv_rate := rate;
       suggested_values := None; error_message := None |}.

(** The loop of [_find_closest_valid_rate] over [valid_rates[1:]]. *)
Fixpoint closest_loop (calculated_rate : Q) (rates : list Q)
    (closest_rate min_diff : Q) : Q :=
  match rates with
  | [] => closest_rate
  | rate :: rest =>
      let diff := Qabs (calculated_rate - rate) in
      if Qlt_bool diff min_diff
      then closest_loop calculated_rate rest rate diff
      else closest_loop calculated_rate rest closest_rate min_diff
  end.

Definition find_closest_in (valid_rates : list Q) (calculated_rate : Q) : exc Q :=
  match valid_rates with
  | [] => Err (IndexError "list index out of range")
  | first :: rest =>
      Ok (closest_loop calculated_rate rest first (Qabs (calculated_rate - first)))
  end.

Definition _find_closest_valid_rate (calculated_rate : Q) : exc Q :=
  find_closest_in get_valid_rates calculated_rate.

(** [rate or Decimal("0")] *)
Definition rate_or_zero (rate : option Q) : Q :=
  match rate with
  | Some r => if Qeq_bool r 0 then 0 else r
  | None => 0
  end.

(** The body of [validate]'s [try] block. *)
Definition validate_body (subtotal kdv_amount total : Q) (rate : option Q)
    : exc KDVResult :=
  if Qlt_bool subtotal 0 || Qlt_bool kdv_amount 0 || Qlt_bool total 0 then
    Ok {| is_valid := false; subtotal := subtotal; kdv_amount := kdv_amount;
          total := total; kdv_rate := rate_or_zero rate;
          suggested_values := None; error_message := Some NegativeAmounts |}
  else
    rate ← match rate with
             | None =>
                 if Qlt_bool 0 subtotal then
                   ratio ← decimal_div kdv_amount subtotal;
                   _find_closest_valid_rate (quantize_cents (ratio * 100))
                 else Ok 20
             | Some r => Ok r
             end;
    let expected_kdv := quantize_cents (subtotal * rate / 100) in
    let expected_total := subtotal + expected_kdv in
    let calculated_total := subtotal + kdv_amount in
    let total_diff := Qabs (total - calculated_total) in
    let kdv_diff := Qabs (kdv_amount - expected_kdv) in
    let expected_total_diff := Qabs (total - expected_total) in
    let is_total_valid := Qle_bool total_diff TOLERANCE in
    let is_kdv_valid := Qle_bool kdv_diff TOLERANCE in
    let is_expected_total_valid := Qle_bool expected_total_diff TOLERANCE in
    let is_valid := is_total_valid && is_kdv_valid && is_expected_total_valid in
    if negb is_valid then
      let error_parts :=
        (if negb is_total_valid
         then [TotalMismatch subtotal kdv_amount calculated_total total total_diff]
         else []) ++
        (if negb is_kdv_valid
         then [KdvMismatch expected_kdv kdv_amount kdv_diff]
         else []) ++
        (if negb is_expected_total_valid
         then [ExpectedTotalMismatch expected_total total expected_total_diff]
         else []) in
      Ok {| is_valid := false; subtotal := subtotal; kdv_amount := kdv_amount;
            total := total; kdv_rate := rate;
            suggested_values :=
              Some {| sug_kdv_amount := expected_kdv; sug_total := expected_total;
                      sug_subtotal := subtotal; sug_kdv_rate := rate |};
            error_message := Some (Mismatch error_parts) |}
    else
      Ok {| is_valid := true; subtotal := subtotal; kdv_amount := kdv_amount;
            total := total; kdv_rate := rate;
            suggested_values := None; error_message := None |}.

(** [validate]: the [except Exception] branch reports the inputs back. *)
Definition validate (subtotal kdv_amount total : Q) (rate : option Q) : KDVResult :=
  match validate_body subtotal kdv_amount total rate with
  | Ok r => r
  | Err e =>
      {| is_valid := false; subtotal := subtotal; kdv_amount := kdv_amount;
         total := total; kdv_rate := rate_or_zero rate;
         suggested_values := None; error_message := Some (ValidationFailure e) |}
  end.

(** The body of [calculate_from_total]'s [try] block. *)
Definition calculate_from_total_body (total rate : Q) : exc KDVResult :=
  if Qlt_bool total 0 then
    Ok {| is_valid := false; subtotal := 0; kdv_amount := 0;
          total := total; kdv_rate := rate;
          suggested_values := None; error_message := Some NegativeTotal |}
  else
    let divisor := 1 + rate / 100 in
    quotient ← decimal_div total divisor;
    let subtotal := quantize_cents quotient in
    let kdv_amount := total - subtotal in
    Ok {| is_valid := true; subtotal := subtotal; kdv_amount := kdv_amount;
          total := total; kdv_rate := rate;
          suggested_values := None; error_message := None |}.

Definition calculate_from_total (total rate : Q) : KDVResult :=
  match calculate_from_total_body total rate with
  | Ok r => r
  | Err e =>
      {| is_valid := false; subtotal := 0; kdv_amount := 0;
         total := total; kdv_rate := rate;
         suggested_values := None; error_message := Some (CalculationFailure e) |}
  end.

(** *** The class as a Python object

    What an instance of [KDVCalculator] answers to: the two class
    attributes and the six class methods defined above, and nothing else. *)

Inductive attribute :=
| A_KDV_RATES
| A_TOLERANCE
| A_get_valid_rates
| A_get_categories_for_rate
| A_calculate
| A_validate
| A_find_closest_valid_rate
| A_calculate_from_total.

Definition attributes : list (string * attribute) :=
  [ ("KDV_RATES", A_KDV_RATES);
    ("TOLERANCE", A_TOLERANCE);
    ("get_valid_rates", A_get_valid_rates);
    ("get_categories_for_rate", A_get_categories_for_rate);
    ("calculate", A_calculate);
    ("validate", A_validate);
    ("_find_closest_valid_rate", A_find_closest_valid_rate);
    ("calculate_from_total", A_calculate_from_total) ]%string.

(** [calculator.<name>] *)
Definition getattr (name : string) : exc attribute :=
  match find (fun kv => String.eqb (fst kv) name) attributes with
  | Some (_, a) => Ok a
  | None => Err (AttributeError "KDVCalculator" name)
  end.

(** What a call can return. *)
Inductive value :=
| VDecimal (d : Q)
| VResult (r : KDVResult)
| VRates (l : list Q)
| VCategories (l : list string).

(** Python's binding of positional and keyword arguments to the parameter
    names of a method: at most as many positionals as parameters, and
    every keyword names a parameter not already filled by position. *)
Definition binds (names : list string) (args : list Q)
    (kwargs : list (string * Q)) : bool :=
  (length args <=? length names)%nat &&
  forallb (fun kv => existsb (String.eqb (fst kv)) (skipn (length args) names))
          kwargs.

Definition argument (pos : nat) (name : string) (args : list Q)
    (kwargs : list (string * Q)) : option Q :=
  match nth_error args pos with
  | Some v => Some v
  | None => option_map snd (find (fun kv => String.eqb (fst kv) name) kwargs)
  end.

Definition bad_call : exc value := Err (TypeError "bad arguments").

(** Calling an attribute with decimal arguments, positional and keyword. *)
Definition call (a : attribute) (args : list Q) (kwargs : list (string * Q))
    : exc value :=
  let get pos name := argument pos name args kwargs in
  match a with
  | A_KDV_RATES | A_TOLERANCE => Err (TypeError "object is not callable")
  | A_get_valid_rates =>
      if binds [] args kwargs then Ok (VRates get_valid_rates) else bad_call
  | A_get_categories_for_rate =>
      if binds ["rate"%string] args kwargs then
        match get 0%nat "rate"%string with
        | Some r =>
            Ok (VCategories
                  (match find (fun kv => Qeq_bool (fst kv) r) KDV_RATES with
                   | Some (_, cats) => cats
                   | None => []
                   end))
        | None => bad_call
        end
      else bad_call
  | A_calculate =>
      if binds ["subtotal"; "rate"]%string args kwargs then
        match get 0%nat "subtotal"%string, get 1%nat "rate"%string with
        | Some s, Some r => Ok (VResult (calculate s r))
        | _, _ => bad_call
        end
      else bad_call
  | A_validate =>
      if binds ["subtotal"; "kdv_amount"; "total"; "rate"]%string args kwargs then
        match get 0%nat "subtotal"%string, get 1%nat "kdv_amount"%string,
              get 2%nat "total"%string with
        | Some s, Some k, Some t =>
            Ok (VResult (validate s k t (get 3%nat "rate"%string)))
        | _, _, _ => bad_call
        end
      else bad_call
  | A_find_closest_valid_rate =>
      if binds ["calculated_rate"%string] args kwargs then
        match get 0%nat "calculated_rate"%string with
        | Some c => r ← _find_closest_valid_rate c; Ok (VDecimal r)
        | None => bad_call
        end
      else bad_call
  | A_calculate_from_total =>
      if binds ["total"; "rate"]%string args kwargs then
        match get 0%nat "total"%string, get 1%nat "rate"%string with
        | Some t, Some r => Ok (VResult (calculate_from_total t r))
        | _, _ => bad_call
        end
      else bad_call
  end.

(** A method call on the calculator: the attribute is looked up before
    the call is made. *)
Definition call_method (name : string) (args : list Q)
    (kwargs : list (string * Q)) : exc value :=
  a ← getattr name; call a args kwargs.

(** [d += v] for a decimal [d]. *)
Definition add_decimal (d : Q) (v : value) : exc Q :=
  match v with
  | VDecimal x => Ok (d + x)
  | _ => Err (TypeError "unsupported operand type(s) for +=")
  end.

End KDVCalculator.

(** ** [ai_extraction_service.py] *)

(** A Python [str]: a sequence of Unicode code points. *)
Definition pystr := list N.

(** [Py_UNICODE_ISSPACE]: the characters [str.strip()] removes. *)
Definition isspace (c : N) : bool :=
  ((9 <=? c) && (c <=? 13) || (28 <=? c) && (c <=? 32) ||
   (c =? 133) || (c =? 160) || (c =? 5760) ||
   (8192 <=? c) && (c <=? 8202) || (c =? 8232) || (c =? 8233) ||
   (c =? 8239) || (c =? 8287) || (c =? 12288))%N.

Fixpoint lstrip (s : pystr) : pystr :=
  match s with
  | [] => []
  | c :: rest => if isspace c then lstrip rest else s
  end.

(** [s.strip()] *)
Definition strip (s : pystr) : pystr := rev (lstrip (rev (lstrip s))).

(** Truth value of a string: non-empty. *)
Definition truthy_str (s : pystr) : bool :=
  match s with [] => false | _ :: _ => true end.

Module AIExtractionService.

Record InvoiceLineItem := {
  description : string;
  quantity : Q;
  unit_price : Q;
  kdv_rate : Q;
  total : Q
}.

Record ExtractedInvoiceData := {
  invoice_number : option string;
  invoice_date : option (Z * Z * Z);
  supplier_name : option string;
  supplier_tax_number : option string;
  supplier_address : option string;
  customer_name : option string;
  customer_tax_number : option string;
  customer_address : option string;
  currency : string;
  subtotal : Q;
  total_kdv : Q;
  total_amount : Q;
  line_items : list InvoiceLineItem;
  payment_terms : option string;
  notes : option string
}.

(** [item.total = v] *)
Definition set_total (item : InvoiceLineItem) (v : Q) : InvoiceLineItem :=
  {| description := description item; quantity := quantity item;
     unit_price := unit_price item; kdv_rate := kdv_rate item; total := v |}.

(** Assignment to the three document totals and to [line_items]. *)
Definition set_totals (data : ExtractedInvoiceData) (items : list InvoiceLineItem)
    (s k t : Q) : ExtractedInvoiceData :=
  {| invoice_number := invoice_number data; invoice_date := invoice_date data;
     supplier_name := supplier_name data;
     supplier_tax_number := supplier_tax_number data;
     supplier_address := supplier_address data;
     customer_name := customer_name data;
     customer_tax_number := customer_tax_number data;
     customer_address := customer_address data;
     currency := currency data;
     subtotal := s; total_kdv := k; total_amount := t;
     line_items := items;
     payment_terms := payment_terms data; notes := notes data |}.

(** One iteration of the loop over the line items: the [try] block, with
    the state it leaves behind when an exception ends it early (the
    [except] branch only logs).  The state is the item and the two
    running sums. *)
Definition line_step (item : InvoiceLineItem) (calculated_subtotal calculated_total_kdv : Q)
    : InvoiceLineItem * Q * Q :=
  let line_subtotal := quantity item * unit_price item in
  match KDVCalculator.call_method "calculate_kdv"
          [line_subtotal; kdv_rate item] [] with
  | Err _ => (item, calculated_subtotal, calculated_total_kdv)
  | Ok line_kdv =>
      let item :=
        if Qlt_bool (1 # 100) (Qabs (total item - line_subtotal))
        then set_total item line_subtotal else item in
      let calculated_subtotal := calculated_subtotal + line_subtotal in
      match KDVCalculator.add_decimal calculated_total_kdv line_kdv with
      | Err _ => (item, calculated_subtotal, calculated_total_kdv)
      | Ok kdv => (item, calculated_subtotal, kdv)
      end
  end.

(** The whole loop: the items after their iteration, and the two sums. *)
Fixpoint line_loop (items : list InvoiceLineItem)
    (calculated_subtotal calculated_total_kdv : Q)
    : list InvoiceLineItem * Q * Q :=
  match items with
  | [] => ([], calculated_subtotal, calculated_total_kdv)
  | item :: rest =>
      let '(item', s, k) := line_step item calculated_subtotal calculated_total_kdv in
      let '(rest', s', k') := line_loop rest s k in
      (item' :: rest', s', k')
  end.

Definition _validate_and_recalculate (data : ExtractedInvoiceData)
    : ExtractedInvoiceData :=
  match line_items data with
  | [] => data
  | _ :: _ =>
      let '(items, calculated_subtotal, calculated_total_kdv) :=
        line_loop (line_items data) 0 0 in
      let calculated_total := calculated_subtotal + calculated_total_kdv in
      let s := if Qlt_bool 1 (Qabs (subtotal data - calculated_subtotal))
               then calculated_subtotal else subtotal data in
      let k := if Qlt_bool 1 (Qabs (total_kdv data - calculated_total_kdv))
               then calculated_total_kdv else total_kdv data in
      let t := if Qlt_bool 1 (Qabs (total_amount data - calculated_total))
               then calculated_total else total_amount data in
      set_totals data items s k t
  end.

(** What one call to the language model comes to, up to the point where
    the reply has been parsed into the schema. *)
Inductive reply :=
| NotConfigured        (* [self.client] raised: no request is made *)
| ClientError          (* the API call raised *)
| NoContent            (* the message content is [None] or empty *)
| JSONDecodeError      (* [json.loads] raised *)
| ValidationError      (* building [ExtractedInvoiceData] from the parsed object raised *)
| Parsed (data : ExtractedInvoiceData).

(** What the service does that the outside can see. *)
Inductive event :=
| BuildSystemPrompt
| BuildUserPrompt (ocr_text : pystr)
| ModelCall (attempt : nat)
| Sleep.

(** The [for attempt in range(max_retries + 1)] loop. *)
Fixpoint attempts (language_model : nat -> reply) (max_retries : Z)
    (range : list nat) (trace : list event)
    : list event * exc ExtractedInvoiceData :=
  match range with
  | [] => (trace, Err (ValueError "AI extraction failed after all retries"))
  | attempt :: rest =>
      let trace :=
        match language_model attempt with
        | NotConfigured => trace
        | _ => trace ++ [ModelCall attempt]
        end in
      match language_model attempt with
      | Parsed data => (trace, Ok (_validate_and_recalculate data))
      | JSONDecodeError =>
          if (Z.of_nat attempt =? max_retries)%Z
          then (trace, Err (ValueError
                 "Failed to parse AI response as JSON after {max_retries + 1} attempts"))
          else attempts language_model max_retries rest (trace ++ [Sleep])
      | NotConfigured | ClientError | NoContent | ValidationError =>
          if (Z.of_nat attempt =? max_retries)%Z
          then (trace, Err (ValueError
                 "Failed to extract invoice data after {max_retries + 1} attempts: {str(e)}"))
          else attempts language_model max_retries rest (trace ++ [Sleep])
      end
  end.

Definition extract_invoice_data (language_model : nat -> reply)
    (ocr_text : pystr) (max_retries : Z)
    : list event * exc ExtractedInvoiceData :=
  if negb (truthy_str ocr_text) || negb (truthy_str (strip ocr_text)) then
    ([], Err (ValueError "OCR text is empty"))
  else
    attempts language_model max_retries
      (seq 0 (Z.to_nat (max_retries + 1)))
      [BuildSystemPrompt; BuildUserPrompt ocr_text].

End AIExtractionService.

(** ** JSON values and dictionaries *)

(** A JSON value as Python holds it after [json.loads] or in a [JSONB]
    column; [JNull] is [None].  Numbers are exact. *)
Inductive json :=
| JNull
| JBool (b : bool)
| JNum (q : Q)
| JStr (s : string)
| JArr (l : list json)
| JObj (m : gmap string json).

(** Python's truth value. *)
Definition truthy (v : json) : bool :=
  match v with
  | JNull => false
  | JBool b => b
  | JNum q => negb (Qeq_bool q 0)
  | JStr s => match s with EmptyString => false | String _ _ => true end
  | JArr l => match l with [] => false | _ :: _ => true end
  | JObj m => match map_to_list m with [] => false | _ :: _ => true end
  end.

(** [d.get(key)] on a dictionary *)
Definition get (d : gmap string json) (key : string) : json :=
  default JNull (d !! key).

(** [v.get(key, dflt)] on a value that may not be a dictionary *)
Definition get_of (v : json) (key : string) (dflt : json) : exc json :=
  match v with
  | JObj m => Ok (default dflt (m !! key))
  | _ => Err (AttributeError "object" "get")
  end.

(** ** [models/invoice.py] *)

Inductive InvoiceStatus := UPLOADED | PROCESSING | COMPLETED | FAILED | EXPORTED.

Definition status_eqb (a b : InvoiceStatus) : bool :=
  match a, b with
  | UPLOADED, UPLOADED | PROCESSING, PROCESSING | COMPLETED, COMPLETED
  | FAILED, FAILED | EXPORTED, EXPORTED => true
  | _, _ => false
  end.

(** The columns of an [Invoice] row that the export and update operations
    read or write; times are seconds on the server's clock. *)
Record Invoice := {
  status : InvoiceStatus;
  extracted_data : option (gmap string json);
  is_manually_corrected : bool;
  error_message : option string;
  exported_to_parasut : bool;
  parasut_invoice_id : json;
  exported_at : option Z;
  updated_at : Z
}.

(** [not invoice.extracted_data]: [None] or an empty dictionary. *)
Definition no_extracted_data (invoice : Invoice) : bool :=
  match extracted_data invoice with
  | None => true
  | Some d => negb (truthy (JObj d))
  end.

(** ** [parasut_integration.py] *)

Module ParasutClient.

(** [export_invoice].  The parameter [send] is what
    [_convert_invoice_to_parasut_format] followed by the [POST] of
    [_make_request] comes to for this invoice: the ledger's JSON reply, or
    the exception raised on the way. *)
Definition export_invoice (send : Invoice -> exc json) (invoice : Invoice)
    : exc (gmap string json) :=
  if no_extracted_data invoice then
    Err (ParasutAPIError "Invoice has no extracted data to export")
  else
    match
      (result ← send invoice;
       data ← get_of result "data" (JObj ∅);
       parasut_invoice_id ← get_of data "id" JNull;
       Ok (<["success" := JBool true]>
           (<["parasut_invoice_id" := parasut_invoice_id]>
           (<["message" := JStr "Invoice successfully exported to Parasut"]>
           (<["data" := result]> ∅)))))
    with
    | Ok r => Ok r
    | Err (ParasutAPIError msg) => Err (ParasutAPIError msg)
    | Err _ => Err (ParasutAPIError "Export failed: {str(e)}")
    end.

End ParasutClient.

(** ** [api/v1/invoices.py] *)

Module Invoices.

(** The body of an update request after [model_dump(exclude_unset=True)]:
    a field is absent ([None]) or present; a present [extracted_data] is
    a dictionary or [null], a present [status] is one of the five status
    values (the request schema refuses any other string). *)
Record InvoiceUpdate := {
  upd_extracted_data : option (option (gmap string json));
  upd_status : option InvoiceStatus
}.

Definition set_extracted (invoice : Invoice) (d : gmap string json) : Invoice :=
  {| status := status invoice; extracted_data := Some d;
     is_manually_corrected := true;
     error_message := error_message invoice;
     exported_to_parasut := exported_to_parasut invoice;
     parasut_invoice_id := parasut_invoice_id invoice;
     exported_at := exported_at invoice; updated_at := updated_at invoice |}.

Definition set_status (invoice : Invoice) (s : InvoiceStatus) : Invoice :=
  {| status := s; extracted_data := extracted_data invoice;
     is_manually_corrected := is_manually_corrected invoice;
     error_message := error_message invoice;
     exported_to_parasut := exported_to_parasut invoice;
     parasut_invoice_id := parasut_invoice_id invoice;
     exported_at := exported_at invoice; updated_at := updated_at invoice |}.

Definition set_updated_at (invoice : Invoice) (now : Z) : Invoice :=
  {| status := status invoice; extracted_data := extracted_data invoice;
     is_manually_corrected := is_manually_corrected invoice;
     error_message := error_message invoice;
     exported_to_parasut := exported_to_parasut invoice;
     parasut_invoice_id := parasut_invoice_id invoice;
     exported_at := exported_at invoice; updated_at := now |}.

(** The four assignments of a successful export. *)
Definition set_exported (invoice : Invoice) (id : json) (now : Z) : Invoice :=
  {| status := EXPORTED; extracted_data := extracted_data invoice;
     is_manually_corrected := is_manually_corrected invoice;
     error_message := error_message invoice;
     exported_to_parasut := exported_to_parasut invoice;
     parasut_invoice_id := id;
     exported_at := Some now; updated_at := now |}.

(** [invoice.extracted_data or {}] *)
Definition extracted_or_empty (invoice : Invoice) : gmap string json :=
  match extracted_data invoice with
  | Some d => if truthy (JObj d) then d else ∅
  | None => ∅
  end.

Section Update.

(** [Decimal(s)] for a string [s]: the parser of the [decimal] module. *)
Variable parse_decimal : string -> exc Q.

(** [Decimal(str(v))] *)
Definition to_decimal (v : json) : exc Q :=
  match v with
  | JNum q => Ok q
  | JStr s => parse_decimal s
  | _ => Err (InvalidOperation "ConversionSyntax")
  end.

(** The tax check of an edited record: the statements under
    [if extracted.get("subtotal") and extracted.get("kdv_rate")].
    Yields the corrected dictionary. *)
Definition recheck_tax (extracted : gmap string json) : exc (gmap string json) :=
  calculate_kdv ← KDVCalculator.getattr "calculate_kdv";
  subtotal ← to_decimal (get extracted "subtotal");
  kdv_rate ← to_decimal (get extracted "kdv_rate");
  kdv_result ← KDVCalculator.call calculate_kdv []
                 [("subtotal", subtotal); ("kdv_rate", kdv_rate)]%string;
  match kdv_result with
  | KDVCalculator.VResult r =>
      if negb (KDVCalculator.is_valid r) then
        match KDVCalculator.suggested_values r with
        | Some sv =>
            Ok (<["kdv_amount" := JNum (KDVCalculator.sug_kdv_amount sv)]>
                (<["total" := JNum (KDVCalculator.sug_total sv)]> extracted))
        | None => Ok extracted
        end
      else Ok extracted
  | _ => Err (AttributeError "object" "is_valid")
  end.

(** [update_invoice].  [row] is the invoice the query finds for this
    user and id, if any.  The result is the row as stored once the
    request is over, and the response: the updated invoice, or the
    HTTP error.  An exception other than [HTTPException] rolls the
    transaction back and answers 500. *)
Definition update_invoice (now : Z) (row : option Invoice)
    (invoice_update : InvoiceUpdate) : option Invoice * exc Invoice :=
  match row with
  | None => (row, Err (HTTPException 404 "Fatura bulunamadi"))
  | Some invoice =>
      if status_eqb (status invoice) EXPORTED then
        (row, Err (HTTPException 400 "Disa aktarilmis faturalar duzenlenemez"))
      else
        match
          (invoice ←
             match upd_extracted_data invoice_update with
             | Some (Some extracted) =>
                 if truthy (JObj extracted) then
                   extracted ←
                     (if truthy (get extracted "subtotal") &&
                         truthy (get extracted "kdv_rate")
                      then recheck_tax extracted
                      else Ok extracted);
                   let current_extracted := extracted_or_empty invoice in
                   Ok (set_extracted invoice (extracted ∪ current_extracted))
                 else Ok invoice
             | _ => Ok invoice
             end;
           let invoice :=
             match upd_status invoice_update with
             | Some s => set_status invoice s
             | None => invoice
             end in
           Ok (set_updated_at invoice now))
        with
        | Ok invoice' => (Some invoice', Ok invoice')
        | Err (HTTPException c d) => (row, Err (HTTPException c d))
        | Err _ => (row, Err (HTTPException 500 "Fatura guncellenirken hata olustu"))
        end
  end.

End Update.

(** [export_to_parasut].  The result is the row as stored once the
    request is over, and the response dictionary or the HTTP error. *)
Definition export_to_parasut (send : Invoice -> exc json) (now : Z)
    (row : option Invoice) : option Invoice * exc (gmap string json) :=
  match row with
  | None => (row, Err (HTTPException 404 "Fatura bulunamadi"))
  | Some invoice =>
      if negb (status_eqb (status invoice) COMPLETED) then
        (row, Err (HTTPException 400 "Sadece tamamlanmis faturalar disa aktarilabilir"))
      else if status_eqb (status invoice) EXPORTED then
        (row, Err (HTTPException 400 "Bu fatura zaten disa aktarildi"))
      else if no_extracted_data invoice then
        (row, Err (HTTPException 400 "Fatura verisi eksik, disa aktarilamaz"))
      else
        match ParasutClient.export_invoice send invoice with
        | Ok result =>
            let invoice' := set_exported invoice (get result "parasut_id") now in
            (Some invoice',
             Ok (<["success" := JBool true]>
                 (<["message" := JStr "Fatura basariyla Parasut'e aktarildi"]>
                 (<["parasut_id" := get result "parasut_id"]>
                 (<["parasut_url" := get result "parasut_url"]>
                 (<["exported_at" := JNum (inject_Z now)]> ∅))))))
        | Err _ =>
            (* [export_invoice] raises [ParasutAPIError] and nothing else *)
            (row, Err (HTTPException 502 "Parasut API hatasi: {parasut_error.message}"))
        end
  end.

End Invoices.

(** ** Sample data

    The records, replies and requests the examples below are run on. *)

Module Samples.

Import AIExtractionService Invoices.

(** A record whose only line states the total 25 for 2 units at 10. *)
Definition wrong_line_total : ExtractedInvoiceData :=
  {| invoice_number := Some "FTR2024001234"%string; invoice_date := Some (2024, 1, 15)%Z;
     supplier_name := None; supplier_tax_number := None; supplier_address := None;
     customer_name := None; customer_tax_number := None; customer_address := None;
     currency := "TRY";
     subtotal := 20; total_kdv := 4; total_amount := 24;
     line_items := [ {| description := "Kalem"; quantity := 2; unit_price := 10;
                        kdv_rate := 20; total := 25 |} ];
     payment_terms := None; notes := None |}.

(** A record that is consistent as it stands: one line of 1 unit at 100
    with 20% tax, subtotal 100, tax 20, total 120. *)
Definition consistent_invoice : ExtractedInvoiceData :=
  {| invoice_number := Some "FTR2024001234"%string; invoice_date := Some (2024, 1, 15)%Z;
     supplier_name := None; supplier_tax_number := None; supplier_address := None;
     customer_name := None; customer_tax_number := None; customer_address := None;
     currency := "TRY";
     subtotal := 100; total_kdv := 20; total_amount := 120;
     line_items := [ {| description := "Kalem"; quantity := 1; unit_price := 100;
                        kdv_rate := 20; total := 100 |} ];
     payment_terms := None; notes := None |}.

(** The text "FATURA". *)
Definition some_text : pystr := [70; 65; 84; 85; 82; 65]%N.

(** A record without line items. *)
Definition no_lines : ExtractedInvoiceData :=
  {| invoice_number := None; invoice_date := None;
     supplier_name := Some "ABC Ticaret"%string; supplier_tax_number := None;
     supplier_address := None;
     customer_name := None; customer_tax_number := None; customer_address := None;
     currency := "TRY";
     subtotal := 10000; total_kdv := 1999; total_amount := 12000;
     line_items := [];
     payment_terms := None; notes := None |}.

(** A completed invoice with extracted data. *)
Definition completed_invoice : Invoice :=
  {| status := COMPLETED;
     extracted_data := Some (<["invoice_number" := JStr "FTR2024001234"]>
                             (<["total_amount" := JNum 12000]> ∅));
     is_manually_corrected := false; error_message := None;
     exported_to_parasut := false; parasut_invoice_id := JNull;
     exported_at := None; updated_at := 1700000000 |}.

(** A ledger that accepts the invoice and assigns it the id "12345". *)
Definition ledger_accepts (_ : Invoice) : exc json :=
  Ok (JObj (<["data" := JObj (<["id" := JStr "12345"]>
                             (<["type" := JStr "sales_invoices"]> ∅))]> ∅)).


(** An invoice that has been exported. *)
Definition exported_invoice : Invoice :=
  {| status := EXPORTED;
     extracted_data := Some (<["invoice_number" := JStr "FTR2024001234"]> ∅);
     is_manually_corrected := false; error_message := None;
     exported_to_parasut := false; parasut_invoice_id := JStr "12345";
     exported_at := Some 1700000300%Z; updated_at := 1700000300 |}.

(** A correction of the notes. *)
Definition notes_correction : InvoiceUpdate :=
  {| upd_extracted_data := Some (Some (<["notes" := JStr "duzeltme"]> ∅));
     upd_status := None |}.

(** A decimal parser that refuses every string. *)
Definition no_parse (_ : string) : exc Q := Err (InvalidOperation "ConversionSyntax").

End Samples.

(** ** Specification vocabulary and proof automation *)



(** ** Observations on traces *)

Module Trace.

Import AIExtractionService.

(** The reply is a record the schema accepted. *)
Definition is_parsed (r : reply) : bool :=
  match r with Parsed _ => true | _ => false end.

Definition is_model_call (e : event) : bool :=
  match e with ModelCall _ => true | _ => false end.

Definition is_sleep (e : event) : bool :=
  match e with Sleep => true | _ => false end.

(** How many requests to the language model a trace holds. *)
Definition model_calls (trace : list event) : nat :=
  length (List.filter is_model_call trace).

(** How many pauses between attempts a trace holds. *)
Definition sleeps (trace : list event) : nat :=
  length (List.filter is_sleep trace).

End Trace.

(** ** [parasut_integration.py]: tokens, requests and retries

    The HTTP side of [ParasutClient].  The client's state, the shared
    cache and the log of what was sent are threaded through the calls; the
    ledger's answers, the settings and the clock are parameters.  Times are
    seconds, as exact rationals. *)

Module ParasutHttp.

(** What a call of this layer can raise. *)
Inductive failure :=
| ClientNotEntered       (* [RuntimeError] of the [client] property *)
| TransportError         (* [httpx.RequestError] *)
| BadJSON                (* [response.json()] raised *)
| BadHeader              (* [int()] of the [Retry-After] header raised *)
| APIError (status_code : option Z) (response_data : option json)
                         (* [ParasutAPIError] *)
| RateLimitError (retry_after : Z)
                         (* [ParasutRateLimitError], status 429 *)
| RetryError (last : failure).
                         (* [tenacity.RetryError] *)

Inductive result (A : Type) :=
| Returned (a : A)
| Raised (e : failure).
Arguments Returned {A} a.
Arguments Raised {A} e.

(** A response of the ledger, as far as the client looks at it. *)
Record response := {
  status_code : Z;
  raises_for_status : bool;        (* [raise_for_status()] raises *)
  json_body : option json;         (* [json()], [None] when it raises *)
  text_nonempty : bool;            (* [response.text] is not empty *)
  retry_after : option (option Z)  (* the header: absent, or its [int()] *)
}.

Inductive outcome :=
| NoReply                          (* the request raised [RequestError] *)
| Reply (r : response).

(** The attributes of the client that its methods read and write. *)
Record client := {
  _token : json;                   (* [JNull] is [None] *)
  _token_expires_at : option Q;
  entered : bool                   (* [_client] is set *)
}.

Inductive effect :=
| TokenPost
| ApiRequest (method endpoint : string) (bearer : json)
| CacheGet
| CacheSet (ttl : Q) (token : json)
| Wait.

Record state := {
  this : client;
  cache : json;                    (* the value under [parasut:access_token] *)
  log : list effect
}.

Definition is_http (e : effect) : bool :=
  match e with TokenPost | ApiRequest _ _ _ => true | _ => false end.

Definition is_token_post (e : effect) : bool :=
  match e with TokenPost => true | _ => false end.

Definition is_api_request (e : effect) : bool :=
  match e with ApiRequest _ _ _ => true | _ => false end.

Definition is_wait (e : effect) : bool :=
  match e with Wait => true | _ => false end.

Definition count (p : effect -> bool) (l : list effect) : nat :=
  length (List.filter p l).

Definition record (e : effect) (s : state) : state :=
  {| this := this s; cache := cache s; log := log s ++ [e] |}.

Definition with_client (c : client) (s : state) : state :=
  {| this := c; cache := cache s; log := log s |}.

(** [timedelta(seconds=v)]: a number of seconds, or [TypeError]. *)
Definition seconds (v : json) : option Q :=
  match v with
  | JNum q => Some q
  | JBool b => Some (if b then 1 else 0)
  | _ => None
  end.

(** The [@retry(stop=stop_after_attempt(n), retry=retry_if_exception_type(...))]
    decorator: the body is run again, after a wait, while it raises a
    retryable exception; after the last attempt [RetryError] is raised; any
    other exception goes through at once. *)
Fixpoint retrying {A : Type} (attempts_left : nat) (retryable : failure -> bool)
    (body : state -> state * result A) (s : state) : state * result A :=
  match attempts_left with
  | O => (s, Raised (RetryError ClientNotEntered))
  | S n =>
      let '(s', r) := body s in
      match r with
      | Returned a => (s', Returned a)
      | Raised e =>
          if retryable e then
            match n with
            | O => (s', Raised (RetryError e))
            | S _ => retrying n retryable body (record Wait s')
            end
          else (s', Raised e)
      end
  end.

Section World.

(** [settings.REDIS_ENABLED], [None] when the attribute lookup raises. *)
Variable redis_enabled : option bool.
(** Whether the calls to the cache server go through. *)
Variable redis_up : bool.
(** The outcome of the HTTP request sent after [n] others. *)
Variable http : nat -> outcome.
(** [datetime.utcnow()] *)
Variable now : Q.

(** [_get_token_from_cache]: every exception is swallowed. *)
Definition _get_token_from_cache (s : state) : state * json :=
  match redis_enabled with
  | Some true =>
      let s := record CacheGet s in
      if redis_up then
        if truthy (cache s) then (s, cache s) else (s, JNull)
      else (s, JNull)
  | _ => (s, JNull)
  end.

(** [_save_token_to_cache]: every exception is swallowed. *)
Definition _save_token_to_cache (token : json) (expires_in : Q) (s : state) : state :=
  match redis_enabled with
  | Some true =>
      let s := record (CacheSet (expires_in - 60) token) s in
      if redis_up
      then {| this := this s; cache := token; log := log s |}
      else s
  | _ => s
  end.

Definition _is_token_valid (c : client) : bool :=
  if negb (truthy (_token c)) then false
  else match _token_expires_at c with
       | None => false
       | Some expires_at => Qlt_bool now (expires_at - 300)
       end.

(** The body of [_authenticate]. *)
Definition authenticate_body (s : state) : state * result json :=
  let '(s, cached_token) := _get_token_from_cache s in
  if truthy cached_token then
    (with_client {| _token := cached_token;
                    _token_expires_at := Some (now + 7200);
                    entered := entered (this s) |} s,
     Returned cached_token)
  else if _is_token_valid (this s) then (s, Returned (_token (this s)))
  else if negb (entered (this s)) then
    (* [self.client] raises inside the [try]; [except Exception] *)
    (s, Raised (APIError None None))
  else
    let n := count is_http (log s) in
    let s := record TokenPost s in
    match http n with
    | NoReply => (s, Raised (APIError None None))   (* [except Exception] *)
    | Reply r =>
        if raises_for_status r then
          (* [except httpx.HTTPStatusError] *)
          if text_nonempty r then
            match json_body r with
            | Some data => (s, Raised (APIError (Some (status_code r)) (Some data)))
            | None => (s, Raised BadJSON)
            end
          else (s, Raised (APIError (Some (status_code r)) None))
        else
          match json_body r with
          | Some (JObj token_data) =>
              match token_data !! "access_token" with
              | Some token =>
                  let c := {| _token := token;
                              _token_expires_at := _token_expires_at (this s);
                              entered := entered (this s) |} in
                  let s := with_client c s in
                  match seconds (default (JNum 7200) (token_data !! "expires_in")) with
                  | Some expires_in =>
                      let c := {| _token := token;
                                  _token_expires_at := Some (now + expires_in);
                                  entered := entered (this s) |} in
                      let s := _save_token_to_cache token expires_in (with_client c s) in
                      (s, Returned token)
                  | None => (s, Raised (APIError None None))
                  end
              | None => (s, Raised (APIError None None))
              end
          | _ => (s, Raised (APIError None None))
          end
    end.

Definition is_transport_error (e : failure) : bool :=
  match e with TransportError => true | _ => false end.

(** [_authenticate], with its decorator. *)
Definition _authenticate (s : state) : state * result json :=
  retrying 3 is_transport_error authenticate_body s.

(** The body of [_make_request]; [_get_headers] is the call of
    [_authenticate] in it. *)
Definition make_request_body (method endpoint : string) (s : state)
    : state * result json :=
  let '(s, token) := _authenticate s in
  match token with
  | Raised e => (s, Raised e)
  | Returned token =>
      if negb (entered (this s)) then (s, Raised ClientNotEntered)
      else
        let n := count is_http (log s) in
        let s := record (ApiRequest method endpoint token) s in
        match http n with
        | NoReply => (s, Raised TransportError)
        | Reply r =>
            if (status_code r =? 429)%Z then
              match retry_after r with
              | None => (s, Raised (RateLimitError 60))
              | Some (Some seconds) => (s, Raised (RateLimitError seconds))
              | Some None => (s, Raised BadHeader)
              end
            else if raises_for_status r then
              (s, Raised (APIError (Some (status_code r)) (json_body r)))
            else
              match json_body r with
              | Some data => (s, Returned data)
              | None => (s, Raised BadJSON)
              end
        end
  end.

Definition is_retried_request_error (e : failure) : bool :=
  match e with TransportError | RateLimitError _ => true | _ => false end.

(** [_make_request], with its decorator. *)
Definition _make_request (method endpoint : string) (s : state)
    : state * result json :=
  retrying 3 is_retried_request_error (make_request_body method endpoint) s.

(** [health_check] *)
Definition health_check (s : state) : state * bool :=
  let '(s, r) := _authenticate s in
  (s, match r with Returned _ => true | Raised _ => false end).

End World.

End ParasutHttp.

(** Clients and answers of the ledger for the examples. *)

Module LedgerSamples.

Import ParasutHttp.


(** A client that was never opened. *)
Definition closed_client : client :=
  {| _token := JNull; _token_expires_at := None; entered := false |}.

(** An open client whose token expires at second 10000. *)
Definition signed_in_client : client :=
  {| _token := JStr "tok"; _token_expires_at := Some 10000; entered := true |}.

Definition start (c : client) : state :=
  {| this := c; cache := JNull; log := [] |}.

Definition token_data : gmap string json :=
  <["access_token" := JStr "tok"]> (<["expires_in" := JNum 7200]> ∅).

Definition token_reply : response :=
  {| status_code := 200; raises_for_status := false;
     json_body := Some (JObj token_data);
     text_nonempty := true; retry_after := None |}.


Definition unprocessable : response :=
  {| status_code := 422; raises_for_status := true;
     json_body := Some (JObj (<["error" := JStr "invalid"]> ∅));
     text_nonempty := true; retry_after := None |}.

End LedgerSamples.

(** ** [ai_extraction_service.py]: the degraded path *)

Module Fallback.

Import AIExtractionService.

(** The dictionary [extract_with_fallback] returns.  [data] is the record
    behind the dumped dictionary.  The entry [error], whose value lies
    beyond the end of the source text, is left out. *)
Record FallbackResult := {
  success : bool;
  data : ExtractedInvoiceData;
  confidence : string;
  requires_review : bool
}.

(** The record of the [except] branch: every optional field null, the
    currency "TRY", the totals zero and no line items. *)
Definition blank_data : ExtractedInvoiceData :=
  {| invoice_number := None; invoice_date := None;
     supplier_name := None; supplier_tax_number := None; supplier_address := None;
     customer_name := None; customer_tax_number := None; customer_address := None;
     currency := "TRY";
     subtotal := 0; total_kdv := 0; total_amount := 0;
     line_items := [];
     payment_terms := None; notes := None |}.

(** [extract_with_fallback]: [extract_invoice_data] with its default
    [max_retries = 2], every exception caught. *)
Definition extract_with_fallback (language_model : nat -> reply) (ocr_text : pystr)
    : list event * FallbackResult :=
  let '(trace, r) := extract_invoice_data language_model ocr_text 2 in
  match r with
  | Ok extracted_data =>
      (trace, {| success := true; data := extracted_data;
                 confidence := "high"; requires_review := false |})
  | Err _ =>
      (trace, {| success := false; data := blank_data;
                 confidence := "low"; requires_review := true |})
  end.

End Fallback.

(** * Properties *)

(** ** Comparisons and rounding *)

Lemma Qlt_bool_iff (x y : Q) : Qlt_bool x y = true <-> x < y.
Proof.
  unfold Qlt_bool. rewrite negb_true_iff. split.
  - intros H. apply Qnot_le_lt. intros Hle.
    apply Qle_bool_iff in Hle. congruence.
  - intros H. destruct (Qle_bool y x) eqn:E; [|reflexivity].
    apply Qle_bool_iff in E. lra.
Qed.










(** ** Forward and backward computation *)












(** ** Nearest rate of the schedule *)







(** ** Validation *)






(** ** Extraction and reconciliation *)

Section Reconciliation.

Import AIExtractionService Samples.

(** The calculator has no attribute [calculate_kdv]. *)
Lemma calculate_kdv_undefined :
  KDVCalculator.getattr "calculate_kdv"
  = Err (AttributeError "KDVCalculator" "calculate_kdv").
Proof. reflexivity. Qed.

(** So every iteration of the loop ends in its [except] branch, before
    the line total is compared and before the sums are increased. *)
Lemma line_step_skips (item : InvoiceLineItem) (s k : Q) :
  line_step item s k = (item, s, k).
Proof.
  unfold line_step, KDVCalculator.call_method.
  rewrite calculate_kdv_undefined. reflexivity.
Qed.

Lemma line_loop_skips (items : list InvoiceLineItem) (s k : Q) :
  line_loop items s k = (items, s, k).
Proof.
  revert s k. induction items as [| item rest IH]; intros s k; cbn [line_loop].
  - reflexivity.
  - rewrite line_step_skips, IH. reflexivity.
Qed.

(** What [_validate_and_recalculate] does to a record with line items:
    the items stay as they are and the document totals are compared with
    zero. *)
Lemma validate_and_recalculate_nonempty (data : ExtractedInvoiceData) :
  line_items data <> [] ->
  _validate_and_recalculate data =
    set_totals data (line_items data)
      (if Qlt_bool 1 (Qabs (subtotal data - 0)) then 0 else subtotal data)
      (if Qlt_bool 1 (Qabs (total_kdv data - 0)) then 0 else total_kdv data)
      (if Qlt_bool 1 (Qabs (total_amount data - (0 + 0))) then 0 + 0
       else total_amount data).
Proof.
  intros Hne. unfold _validate_and_recalculate.
  destruct (line_items data) as [| item rest] eqn:E; [congruence |].
  rewrite line_loop_skips. reflexivity.
Qed.

(** C1 does not hold of the code. At the record [wrong_line_total],
    returned by the language model on the first attempt,
    [extract_invoice_data] returns the line with its stated total 25,
    which is not [quantity * unit_price = 20]. *)
Theorem reconciliation_keeps_wrong_line_total :
  exists out,
    snd (extract_invoice_data (fun _ => Parsed wrong_line_total) some_text 2)
    = Ok out /\
    map (fun item => (quantity item, unit_price item, total item)) (line_items out)
    = [(2, 10, 25)] /\
    ~ 25 == 2 * 10.
Proof.
  eexists. split; [reflexivity |]. split; [reflexivity |].
  vm_compute. congruence.
Qed.

(** C2 does not hold of the code. At the record [consistent_invoice],
    returned by the language model on the first attempt,
    [extract_invoice_data] returns the subtotal, the tax and the total
    all zero, while the line totals sum to 100 and their tax to 20. *)
Theorem reconciliation_zeroes_document_totals :
  exists out,
    snd (extract_invoice_data (fun _ => Parsed consistent_invoice) some_text 2)
    = Ok out /\
    map total (line_items out) = [100] /\
    subtotal out == 0 /\ total_kdv out == 0 /\ total_amount out == 0 /\
    1 < Qabs (subtotal out - 100) /\
    1 < Qabs (total_kdv out
              - KDVCalculator.kdv_amount (KDVCalculator.calculate 100 20)) /\
    1 < Qabs (total_amount out - 120).
Proof.
  eexists. split; [reflexivity |]. split; [reflexivity |].
  repeat split; vm_compute; congruence.
Qed.

(** C10. A record without line items comes out of
    [_validate_and_recalculate] as it went in. *)
Theorem validate_and_recalculate_empty (data : ExtractedInvoiceData) :
  line_items data = [] -> _validate_and_recalculate data = data.
Proof.
  intros Hempty. unfold _validate_and_recalculate. rewrite Hempty. reflexivity.
Qed.

Lemma validate_and_recalculate_empty_witness :
  _validate_and_recalculate no_lines = no_lines.
Proof. apply (validate_and_recalculate_empty no_lines). reflexivity. Defined.

(** Stripping a string of whitespace leaves nothing. *)
Lemma lstrip_blank (s : pystr) : forallb isspace s = true -> lstrip s = [].
Proof.
  induction s as [| c rest IH]; simpl; [reflexivity |].
  intros H. apply andb_prop in H as [Hc Hrest].
  rewrite Hc. apply IH, Hrest.
Qed.

Lemma strip_blank (s : pystr) : forallb isspace s = true -> strip s = [].
Proof. intros H. unfold strip. rewrite (lstrip_blank s H). reflexivity. Qed.

(** C8. On a text that is empty or all whitespace, [extract_invoice_data]
    raises [ValueError] at once: no prompt has been built and the
    language model has not been called. *)
Theorem extract_rejects_blank_text (language_model : nat -> reply)
    (ocr_text : pystr) (max_retries : Z) :
  forallb isspace ocr_text = true ->
  extract_invoice_data language_model ocr_text max_retries
  = ([], Err (ValueError "OCR text is empty")).
Proof.
  intros Hblank. unfold extract_invoice_data.
  rewrite (strip_blank ocr_text Hblank). simpl.
  rewrite orb_true_r. reflexivity.
Qed.

(** A space, a tab and a line feed. *)
Lemma extract_rejects_blank_text_witness :
  extract_invoice_data (fun _ => Parsed consistent_invoice) [32; 9; 10]%N 2
  = ([], Err (ValueError "OCR text is empty")).
Proof. apply extract_rejects_blank_text. reflexivity. Defined.

End Reconciliation.

(** ** Export to the ledger *)

Section LedgerExport.

Import Invoices.

(** The dictionary [export_invoice] returns carries the ledger's id under
    the key [parasut_invoice_id], and has no key [parasut_id]. *)
Lemma export_invoice_keys (send : Invoice -> exc json) (invoice : Invoice)
    (result : gmap string json) :
  ParasutClient.export_invoice send invoice = Ok result ->
  result !! "parasut_id" = None /\
  exists id, result !! "parasut_invoice_id" = Some id.
Proof.
  unfold ParasutClient.export_invoice.
  destruct (no_extracted_data invoice); [discriminate |].
  destruct (send invoice) as [reply | e]; cbn [mbind exc_bind].
  - destruct (get_of reply "data" (JObj ∅)) as [data | e]; cbn [mbind exc_bind].
    + destruct (get_of data "id" JNull) as [id | e]; cbn [mbind exc_bind].
      * intros [= <-]. split.
        -- rewrite !lookup_insert_ne by discriminate. apply lookup_empty.
        -- exists id. rewrite lookup_insert_ne by discriminate.
           apply lookup_insert_eq.
      * destruct e; discriminate.
    + destruct e; discriminate.
  - destruct e; discriminate.
Qed.

(** Whenever the export operation succeeds, the invoice is stored as
    exported with the time of the export and without an id. *)
Lemma export_to_parasut_success (send : Invoice -> exc json) (now : Z)
    (row stored : option Invoice) (response : gmap string json) :
  export_to_parasut send now row = (stored, Ok response) ->
  exists invoice invoice',
    row = Some invoice /\ stored = Some invoice' /\
    status invoice = COMPLETED /\
    status invoice' = EXPORTED /\
    exported_at invoice' = Some now /\
    parasut_invoice_id invoice' = JNull.
Proof.
  unfold export_to_parasut. destruct row as [invoice |]; [| discriminate].
  destruct (status_eqb (status invoice) COMPLETED) eqn:Hst;
    cbn [negb]; [| discriminate].
  destruct (status_eqb (status invoice) EXPORTED); [discriminate |].
  destruct (no_extracted_data invoice); [discriminate |].
  destruct (ParasutClient.export_invoice send invoice) as [result | e] eqn:Hexp.
  - intros [= <- _]. apply export_invoice_keys in Hexp as [Hnone _].
    exists invoice. eexists. split; [reflexivity |]. split; [reflexivity |].
    split; [destruct (status invoice); try discriminate; reflexivity |].
    split; [reflexivity |]. split; [reflexivity |].
    cbn [set_exported parasut_invoice_id]. unfold get. rewrite Hnone. reflexivity.
  - destruct e; discriminate.
Qed.

End LedgerExport.

Section ExportExample.

Import Invoices Samples.

(** C3 does not hold of the code. The ledger accepts [completed_invoice]
    and assigns it the id "12345"; [export_invoice] returns that id;
    [export_to_parasut] stores the invoice as exported, with the time of
    the export, and with no ledger id. *)
Theorem export_loses_ledger_id :
  exists result invoice' response,
    ParasutClient.export_invoice ledger_accepts completed_invoice = Ok result /\
    result !! "parasut_invoice_id" = Some (JStr "12345") /\
    export_to_parasut ledger_accepts 1700000600 (Some completed_invoice)
    = (Some invoice', Ok response) /\
    status invoice' = EXPORTED /\
    exported_at invoice' = Some 1700000600%Z /\
    parasut_invoice_id invoice' = JNull.
Proof.
  destruct (ParasutClient.export_invoice ledger_accepts completed_invoice)
    as [result | e] eqn:Hexp; [| vm_compute in Hexp; discriminate].
  destruct (export_to_parasut ledger_accepts 1700000600 (Some completed_invoice))
    as [stored [response | e]] eqn:Hrun; [| vm_compute in Hrun; discriminate].
  destruct (export_to_parasut_success _ _ _ _ _ Hrun)
    as (invoice & invoice' & _ & -> & _ & Hst & Hat & Hid).
  exists result, invoice', response.
  split; [reflexivity |]. split; [| auto].
  vm_compute in Hexp. injection Hexp as <-. reflexivity.
Qed.

End ExportExample.

(** ** Editing an invoice *)

Section Editing.

Import Invoices Samples.




End Editing.

(** * Further properties *)

(** ** Rounding *)






(** ** Backward computation *)




(** X3. [calculate_from_total] never raises: a negative total, and the rate
    -100 whose divisor is zero, are answered with [is_valid = false], a zero
    subtotal, a zero tax and a message. *)
Theorem calculate_from_total_refuses (total rate : Q) :
  total < 0 \/ 1 + rate / 100 == 0 ->
  let r := KDVCalculator.calculate_from_total total rate in
  KDVCalculator.is_valid r = false /\
  KDVCalculator.subtotal r = 0 /\
  KDVCalculator.kdv_amount r = 0 /\
  KDVCalculator.total r = total /\
  KDVCalculator.kdv_rate r = rate /\
  KDVCalculator.error_message r <> None.
Proof.
  intros H r. subst r.
  unfold KDVCalculator.calculate_from_total,
    KDVCalculator.calculate_from_total_body.
  destruct (Qlt_bool total 0) eqn:Et.
  - cbn. repeat split; discriminate.
  - destruct H as [H | H]; [apply Qlt_bool_iff in H; congruence |].
    unfold KDVCalculator.decimal_div.
    apply Qeq_bool_iff in H. rewrite H.
    destruct (Qeq_bool total 0); cbn; repeat split; discriminate.
Qed.

Lemma calculate_from_total_refuses_witness :
  KDVCalculator.is_valid (KDVCalculator.calculate_from_total 12000 (-100)) = false.
Proof.
  apply (calculate_from_total_refuses 12000 (-100)). right. reflexivity.
Defined.



(** ** Validation, further *)








(** ** Nearest rate, in numbers *)



(** ** The retry loop of the extraction *)

Section Retries.

Import AIExtractionService Trace.

Lemma model_calls_app (t1 t2 : list event) :
  model_calls (t1 ++ t2) = (model_calls t1 + model_calls t2)%nat.
Proof. unfold model_calls. rewrite List.filter_app, length_app. reflexivity. Qed.

Lemma sleeps_app (t1 t2 : list event) :
  sleeps (t1 ++ t2) = (sleeps t1 + sleeps t2)%nat.
Proof. unfold sleeps. rewrite List.filter_app, length_app. reflexivity. Qed.

(** The guard of [extract_invoice_data] lets a text through exactly when
    something is left of it after stripping. *)
Lemma guard_passes (ocr_text : pystr) :
  strip ocr_text <> [] ->
  negb (truthy_str ocr_text) || negb (truthy_str (strip ocr_text)) = false.
Proof.
  intros H. destruct ocr_text as [| c rest]; [contradiction H; reflexivity |].
  destruct (strip (c :: rest)); [contradiction H; reflexivity | reflexivity].
Qed.

(** The loop from attempt [a] on: [k] replies that are no record, then a
    record. *)
Lemma attempts_success (language_model : nat -> reply) (max_retries : Z)
    (data : ExtractedInvoiceData) :
  forall (k a n : nat) (trace : list event),
    (k < n)%nat ->
    (Z.of_nat (a + k) <= max_retries)%Z ->
    (forall i, (a <= i < a + k)%nat -> is_parsed (language_model i) = false) ->
    language_model (a + k)%nat = Parsed data ->
    exists rest,
      attempts language_model max_retries (seq a n) trace
      = (trace ++ rest, Ok (_validate_and_recalculate data)) /\
      sleeps rest = k /\ (model_calls rest <= k + 1)%nat /\
      List.last rest Sleep = ModelCall (a + k).
Proof.
  induction k as [| k IH]; intros a n trace Hn Hmax Hfail Hok.
  - destruct n as [| n]; [lia |]. cbn [seq attempts].
    rewrite Nat.add_0_r in Hok. rewrite Hok.
    exists [ModelCall a]. rewrite Nat.add_0_r.
    repeat split; cbn; lia.
  - destruct n as [| n]; [lia |]. cbn [seq attempts].
    assert (Ha : is_parsed (language_model a) = false) by (apply Hfail; lia).
    assert (Hne : (Z.of_nat a =? max_retries)%Z = false) by (apply Z.eqb_neq; lia).
    destruct (IH (S a) n
                (match language_model a with
                 | NotConfigured => trace
                 | _ => trace ++ [ModelCall a]
                 end ++ [Sleep]))
      as (rest & Hrun & Hsleeps & Hcalls & Hlast).
    + lia.
    + rewrite <- Nat.add_succ_comm in Hmax. exact Hmax.
    + intros i Hi. apply Hfail. lia.
    + rewrite <- Nat.add_succ_comm in Hok. exact Hok.
    + assert (Hrest : rest <> []).
      { intros ->. cbn in Hlast. discriminate. }
      destruct (language_model a) eqn:E; try discriminate Ha; rewrite Hne, Hrun;
        [ exists (Sleep :: rest)
        | exists (ModelCall a :: Sleep :: rest)
        | exists (ModelCall a :: Sleep :: rest)
        | exists (ModelCall a :: Sleep :: rest)
        | exists (ModelCall a :: Sleep :: rest) ];
        (split; [rewrite <- ?app_assoc; reflexivity |]);
        (split; [change (S (sleeps rest) = S k); lia |]);
        (split; [unfold model_calls in *; cbn; lia |]);
        replace (a + S k)%nat with (S a + k)%nat by lia;
        rewrite <- Hlast;
        (destruct rest; [contradiction | reflexivity]).
Qed.

(** X10. Retry until a reply parses: on a text that is not blank, when the
    first [k] replies of the language model are no record of the schema and
    reply [k] is one, with [k <= max_retries], [extract_invoice_data]
    returns that record after reconciliation; it has paused [k] times, made
    at most [k + 1] requests, and its last request is attempt [k]. *)
Theorem extract_succeeds_after_failures (language_model : nat -> reply)
    (ocr_text : pystr) (max_retries : Z) (k : nat) (data : ExtractedInvoiceData) :
  strip ocr_text <> [] ->
  (Z.of_nat k <= max_retries)%Z ->
  (forall i, (i < k)%nat -> is_parsed (language_model i) = false) ->
  language_model k = Parsed data ->
  let run := extract_invoice_data language_model ocr_text max_retries in
  snd run = Ok (_validate_and_recalculate data) /\
  sleeps (fst run) = k /\
  (model_calls (fst run) <= k + 1)%nat /\
  List.last (fst run) Sleep = ModelCall k.
Proof.
  intros Htext Hk Hfail Hok run. subst run.
  unfold extract_invoice_data. rewrite (guard_passes _ Htext).
  destruct (attempts_success language_model max_retries data k 0
              (Z.to_nat (max_retries + 1)) [BuildSystemPrompt; BuildUserPrompt ocr_text])
    as (rest & Hrun & Hsleeps & Hcalls & Hlast).
  - lia.
  - exact Hk.
  - intros i Hi. apply Hfail. lia.
  - exact Hok.
  - rewrite Hrun. cbn [fst snd]. split; [reflexivity |].
    rewrite sleeps_app, model_calls_app. cbn.
    split; [exact Hsleeps |]. split; [exact Hcalls |].
    cbn in Hlast. destruct rest; [discriminate | exact Hlast].
Qed.

Lemma extract_succeeds_after_failures_witness :
  let language_model := fun i => if (i <? 2)%nat then JSONDecodeError
                                 else Parsed Samples.consistent_invoice in
  snd (extract_invoice_data language_model Samples.some_text 2)
  = Ok (_validate_and_recalculate Samples.consistent_invoice).
Proof.
  intros language_model.
  apply (extract_succeeds_after_failures language_model Samples.some_text 2 2
           Samples.consistent_invoice).
  - discriminate.
  - lia.
  - intros i Hi. subst language_model. cbv beta.
    destruct (Nat.ltb_spec i 2); [reflexivity | lia].
  - reflexivity.
Defined.

End Retries.

Section RetryBudget.

Import AIExtractionService Trace.

(** Whatever the replies, the loop adds only requests and pauses to the
    trace, one request at most and one pause at most for each attempt. *)
Lemma attempts_trace (language_model : nat -> reply) (max_retries : Z) :
  forall (range : list nat) (trace : list event),
  exists rest,
    fst (attempts language_model max_retries range trace) = trace ++ rest /\
    forallb (fun e => is_model_call e || is_sleep e) rest = true /\
    (model_calls rest <= length range)%nat /\
    (sleeps rest <= length range)%nat.
Proof.
  induction range as [| attempt range IH]; intros trace.
  - exists []. cbn. rewrite app_nil_r. repeat split; lia.
  - cbn [attempts].
    destruct (IH (match language_model attempt with
                  | NotConfigured => trace
                  | _ => trace ++ [ModelCall attempt]
                  end ++ [Sleep])) as (rest & Hrun & Hall & Hcalls & Hsleeps).
    assert (Hstop : forall r : exc ExtractedInvoiceData,
              exists rest',
                fst (match language_model attempt with
                     | NotConfigured => trace
                     | _ => trace ++ [ModelCall attempt]
                     end, r) = trace ++ rest' /\
                forallb (fun e => is_model_call e || is_sleep e) rest' = true /\
                (model_calls rest' <= length (attempt :: range))%nat /\
                (sleeps rest' <= length (attempt :: range))%nat).
    { intros r. destruct (language_model attempt);
        [ exists [] | exists [ModelCall attempt] | exists [ModelCall attempt]
        | exists [ModelCall attempt] | exists [ModelCall attempt]
        | exists [ModelCall attempt] ];
        cbn; rewrite ?app_nil_r; repeat split; lia. }
    assert (Hgo : exists rest',
              fst (attempts language_model max_retries range
                     (match language_model attempt with
                      | NotConfigured => trace
                      | _ => trace ++ [ModelCall attempt]
                      end ++ [Sleep])) = trace ++ rest' /\
              forallb (fun e => is_model_call e || is_sleep e) rest' = true /\
              (model_calls rest' <= length (attempt :: range))%nat /\
              (sleeps rest' <= length (attempt :: range))%nat).
    { rewrite Hrun. unfold model_calls, sleeps in *.
      destruct (language_model attempt);
        [ exists (Sleep :: rest) | exists (ModelCall attempt :: Sleep :: rest)
        | exists (ModelCall attempt :: Sleep :: rest)
        | exists (ModelCall attempt :: Sleep :: rest)
        | exists (ModelCall attempt :: Sleep :: rest)
        | exists (ModelCall attempt :: Sleep :: rest) ];
        (split; [rewrite <- ?app_assoc; reflexivity |]);
        (split; [cbn; exact Hall |]);
        cbn; lia. }
    destruct (language_model attempt) eqn:E;
      try (destruct (Z.of_nat attempt =? max_retries)%Z);
      first [exact Hgo | apply Hstop].
Qed.

(** X11. Bounded retries: whatever the language model replies,
    [extract_invoice_data] with [max_retries >= 0] sends it at most
    [max_retries + 1] requests; the trace of a run on a text that is not
    blank is the two prompts, built once, followed by requests and pauses
    only. *)
Theorem extract_call_budget (language_model : nat -> reply)
    (ocr_text : pystr) (max_retries : Z) :
  let run := extract_invoice_data language_model ocr_text max_retries in
  (model_calls (fst run) <= Z.to_nat (max_retries + 1))%nat /\
  (strip ocr_text <> [] ->
   exists rest,
     fst run = [BuildSystemPrompt; BuildUserPrompt ocr_text] ++ rest /\
     forallb (fun e => is_model_call e || is_sleep e) rest = true).
Proof.
  intros run. subst run. unfold extract_invoice_data.
  destruct (attempts_trace language_model max_retries
              (seq 0 (Z.to_nat (max_retries + 1)))
              [BuildSystemPrompt; BuildUserPrompt ocr_text])
    as (rest & Hrun & Hall & Hcalls & _).
  rewrite length_seq in Hcalls. split.
  - destruct (negb (truthy_str ocr_text) || negb (truthy_str (strip ocr_text))).
    + cbn. lia.
    + rewrite Hrun, model_calls_app. cbn. exact Hcalls.
  - intros Htext. rewrite (guard_passes _ Htext).
    exists rest. split; assumption.
Qed.

(** The loop from attempt [a] on, when no reply up to the last attempt is a
    record. *)
Lemma attempts_exhausted (language_model : nat -> reply) (max_retries : Z) :
  forall (n a : nat) (trace : list event),
    Z.of_nat (a + n) = max_retries ->
    (forall i, (a <= i <= a + n)%nat -> is_parsed (language_model i) = false) ->
    exists rest msg,
      attempts language_model max_retries (seq a (S n)) trace
      = (trace ++ rest, Err (ValueError msg)) /\
      sleeps rest = n /\
      (language_model (a + n)%nat = JSONDecodeError <->
       msg = "Failed to parse AI response as JSON after {max_retries + 1} attempts"%string).
Proof.
  induction n as [| n IH]; intros a trace Hmax Hfail.
  - cbn [seq attempts]. rewrite Nat.add_0_r in *.
    assert (Ha : is_parsed (language_model a) = false) by (apply Hfail; lia).
    assert (He : (Z.of_nat a =? max_retries)%Z = true) by (apply Z.eqb_eq; lia).
    rewrite He.
    destruct (language_model a) eqn:E; try discriminate Ha;
      [ exists [] | exists [ModelCall a] | exists [ModelCall a]
      | exists [ModelCall a] | exists [ModelCall a] ];
      eexists; (split; [rewrite ?app_nil_r; reflexivity |]);
      (split; [reflexivity |]); split; intros H; try discriminate H; reflexivity.
  - change (seq a (S (S n))) with (a :: seq (S a) (S n)). cbn [attempts].
    assert (Ha : is_parsed (language_model a) = false) by (apply Hfail; lia).
    assert (He : (Z.of_nat a =? max_retries)%Z = false) by (apply Z.eqb_neq; lia).
    destruct (IH (S a)
                (match language_model a with
                 | NotConfigured => trace
                 | _ => trace ++ [ModelCall a]
                 end ++ [Sleep]))
      as (rest & msg & Hrun & Hsleeps & Hmsg).
    + rewrite <- Hmax. f_equal. lia.
    + intros i Hi. apply Hfail. lia.
    + replace (a + S n)%nat with (S a + n)%nat by lia.
      destruct (language_model a) eqn:E; try discriminate Ha; rewrite He, Hrun;
        [ exists (Sleep :: rest) | exists (ModelCall a :: Sleep :: rest)
        | exists (ModelCall a :: Sleep :: rest)
        | exists (ModelCall a :: Sleep :: rest)
        | exists (ModelCall a :: Sleep :: rest) ];
        exists msg; (split; [rewrite <- ?app_assoc; reflexivity |]);
        (split; [change (S (sleeps rest) = S n); lia | exact Hmsg]).
Qed.

(** X12. Giving up: on a text that is not blank, when none of the replies
    up to attempt [max_retries >= 0] is a record of the schema,
    [extract_invoice_data] raises [ValueError] after exactly [max_retries]
    pauses (none after the last attempt); the message is the one about
    parsing exactly when the last reply was malformed JSON. *)
Theorem extract_gives_up (language_model : nat -> reply)
    (ocr_text : pystr) (max_retries : Z) :
  strip ocr_text <> [] ->
  (0 <= max_retries)%Z ->
  (forall i, (i <= Z.to_nat max_retries)%nat -> is_parsed (language_model i) = false) ->
  let run := extract_invoice_data language_model ocr_text max_retries in
  exists msg,
    snd run = Err (ValueError msg) /\
    sleeps (fst run) = Z.to_nat max_retries /\
    (language_model (Z.to_nat max_retries) = JSONDecodeError <->
     msg = "Failed to parse AI response as JSON after {max_retries + 1} attempts"%string).
Proof.
  intros Htext Hmax Hfail run. subst run.
  unfold extract_invoice_data. rewrite (guard_passes _ Htext).
  replace (Z.to_nat (max_retries + 1)) with (S (Z.to_nat max_retries)) by lia.
  destruct (attempts_exhausted language_model max_retries (Z.to_nat max_retries) 0
              [BuildSystemPrompt; BuildUserPrompt ocr_text])
    as (rest & msg & Hrun & Hsleeps & Hmsg).
  - cbn. lia.
  - intros i Hi. apply Hfail. lia.
  - rewrite Hrun. exists msg. cbn [fst snd].
    split; [reflexivity |]. rewrite sleeps_app. cbn.
    split; [exact Hsleeps | exact Hmsg].
Qed.

Lemma extract_gives_up_witness :
  exists msg,
    snd (extract_invoice_data (fun _ => NoContent) Samples.some_text 2)
    = Err (ValueError msg).
Proof.
  destruct (extract_gives_up (fun _ => NoContent) Samples.some_text 2)
    as (msg & Hrun & _); [discriminate | lia | reflexivity |].
  exists msg. exact Hrun.
Defined.

(** X13. With a negative [max_retries] the loop has no attempt:
    [extract_invoice_data] builds the prompts, sends no request and raises
    [ValueError]. *)
Theorem extract_without_attempts (language_model : nat -> reply)
    (ocr_text : pystr) (max_retries : Z) :
  strip ocr_text <> [] ->
  (max_retries < 0)%Z ->
  extract_invoice_data language_model ocr_text max_retries
  = ([BuildSystemPrompt; BuildUserPrompt ocr_text],
     Err (ValueError "AI extraction failed after all retries")).
Proof.
  intros Htext Hneg. unfold extract_invoice_data.
  rewrite (guard_passes _ Htext).
  replace (Z.to_nat (max_retries + 1)) with 0%nat by lia. reflexivity.
Qed.

Lemma extract_without_attempts_witness :
  snd (extract_invoice_data (fun _ => Parsed Samples.consistent_invoice)
         Samples.some_text (-1))
  = Err (ValueError "AI extraction failed after all retries").
Proof.
  rewrite (extract_without_attempts _ Samples.some_text (-1));
    [reflexivity | discriminate | lia].
Defined.

End RetryBudget.

(** ** Reconciliation, further *)

Section ReconciliationFrame.

Import AIExtractionService.

(** X14. [_validate_and_recalculate] changes nothing but money: the header
    fields of the record come out as they went in, and so do the number of
    lines and the description, quantity, unit price and rate of each. *)
Theorem reconciliation_frame (data : ExtractedInvoiceData) :
  let out := _validate_and_recalculate data in
  invoice_number out = invoice_number data /\
  invoice_date out = invoice_date data /\
  supplier_name out = supplier_name data /\
  supplier_tax_number out = supplier_tax_number data /\
  supplier_address out = supplier_address data /\
  customer_name out = customer_name data /\
  customer_tax_number out = customer_tax_number data /\
  customer_address out = customer_address data /\
  currency out = currency data /\
  payment_terms out = payment_terms data /\
  notes out = notes data /\
  map (fun i => (description i, quantity i, unit_price i, kdv_rate i)) (line_items out)
  = map (fun i => (description i, quantity i, unit_price i, kdv_rate i)) (line_items data).
Proof.
  intros out. subst out.
  destruct (line_items data) as [| item rest] eqn:E.
  - unfold _validate_and_recalculate. rewrite E.
    repeat split; rewrite ?E; reflexivity.
  - rewrite validate_and_recalculate_nonempty by congruence.
    cbn. rewrite E. repeat split.
Qed.

(** X15. Reconciling twice is reconciling once. *)
Theorem reconciliation_idempotent (data : ExtractedInvoiceData) :
  _validate_and_recalculate (_validate_and_recalculate data)
  = _validate_and_recalculate data.
Proof.
  destruct (line_items data) as [| item rest] eqn:E.
  - assert (H : _validate_and_recalculate data = data)
      by (unfold _validate_and_recalculate; rewrite E; reflexivity).
    rewrite !H. reflexivity.
  - assert (Hne : line_items data <> []) by congruence.
    rewrite (validate_and_recalculate_nonempty data Hne).
    set (out := set_totals data _ _ _ _).
    assert (Hne' : line_items out <> []) by (subst out; cbn; exact Hne).
    rewrite (validate_and_recalculate_nonempty out Hne').
    subst out. unfold set_totals. cbn.
    assert (Hfix : forall v z : Q, z == 0 ->
              (if Qlt_bool 1 (Qabs ((if Qlt_bool 1 (Qabs (v - z)) then z else v) - z))
               then z else if Qlt_bool 1 (Qabs (v - z)) then z else v)
              = (if Qlt_bool 1 (Qabs (v - z)) then z else v)).
    { intros v z Hz. destruct (Qlt_bool 1 (Qabs (v - z))) eqn:Ev.
      - destruct (Qlt_bool 1 (Qabs (z - z))) eqn:Ez; reflexivity.
      - rewrite Ev. reflexivity. }
    rewrite (Hfix (subtotal data) 0), (Hfix (total_kdv data) 0),
      (Hfix (total_amount data) (0 + 0)) by reflexivity.
    reflexivity.
Qed.

End ReconciliationFrame.

(** ** Export and update, further *)

Section InvoiceGuards.

Import Invoices.

(** X16. An export that is refused does not involve the ledger: for an
    invoice that is not found (404), whose status is not [completed] (400)
    or that has no extracted data (400), [export_to_parasut] leaves the
    stored row as it is and answers the same whatever the ledger would
    have done. *)
Theorem export_refused_without_ledger (send send' : Invoice -> exc json)
    (now : Z) (row : option Invoice) :
  (row = None \/
   exists invoice, row = Some invoice /\
     (status invoice <> COMPLETED \/ no_extracted_data invoice = true)) ->
  (exists code detail,
     export_to_parasut send now row = (row, Err (HTTPException code detail)) /\
     (code = 404%Z <-> row = None) /\ (code = 400%Z <-> row <> None)) /\
  export_to_parasut send' now row = export_to_parasut send now row.
Proof.
  intros [-> | (invoice & -> & Hwhy)].
  - split; [| reflexivity]. eexists _, _. split; [reflexivity |].
    split; split; intros H; try reflexivity; try discriminate; contradiction.
  - unfold export_to_parasut.
    destruct (status_eqb (status invoice) COMPLETED) eqn:Hst; cbn [negb].
    + assert (Hnot : status_eqb (status invoice) EXPORTED = false)
        by (destruct (status invoice); try discriminate; reflexivity).
      rewrite Hnot.
      destruct Hwhy as [Hwhy | Hwhy];
        [destruct (status invoice); try discriminate; contradiction |].
      rewrite Hwhy. split; [| reflexivity]. eexists _, _.
      split; [reflexivity |].
      split; split; intros H; try reflexivity; try discriminate.
    + split; [| reflexivity]. eexists _, _. split; [reflexivity |].
      split; split; intros H; try reflexivity; try discriminate.
Qed.

Lemma export_refused_without_ledger_witness :
  exists detail,
    export_to_parasut Samples.ledger_accepts 1700000600 (Some Samples.exported_invoice)
    = (Some Samples.exported_invoice, Err (HTTPException 400 detail)).
Proof.
  destruct (export_refused_without_ledger Samples.ledger_accepts
              Samples.ledger_accepts 1700000600 (Some Samples.exported_invoice))
    as [(code & detail & Hrun & _ & Hcode) _].
  - right. exists Samples.exported_invoice. split; [reflexivity |].
    left. discriminate.
  - assert (code = 400%Z) as -> by (apply Hcode; discriminate).
    exists detail. exact Hrun.
Defined.

(** X17. An exported invoice is final for both operations: once
    [export_to_parasut] has succeeded, a second export of the stored row
    and any update of it are answered 400 and leave the row as it is. *)
Theorem exported_invoice_is_final (send send' : Invoice -> exc json)
    (parse_decimal : string -> exc Q) (now now' : Z)
    (row stored : option Invoice) (response : gmap string json)
    (invoice_update : InvoiceUpdate) :
  export_to_parasut send now row = (stored, Ok response) ->
  (exists detail,
     export_to_parasut send' now' stored
     = (stored, Err (HTTPException 400 detail))) /\
  (exists detail,
     update_invoice parse_decimal now' stored invoice_update
     = (stored, Err (HTTPException 400 detail))).
Proof.
  intros Hrun.
  destruct (export_to_parasut_success _ _ _ _ _ Hrun)
    as (invoice & invoice' & _ & -> & _ & Hst & _).
  split.
  - unfold export_to_parasut. rewrite Hst. cbn. eexists. reflexivity.
  - unfold update_invoice. rewrite Hst. cbn. eexists. reflexivity.
Qed.

Lemma exported_invoice_is_final_witness :
  exists stored detail,
    fst (export_to_parasut Samples.ledger_accepts 1700000600
           (Some Samples.completed_invoice)) = stored /\
    export_to_parasut Samples.ledger_accepts 1700000700 stored
    = (stored, Err (HTTPException 400 detail)).
Proof.
  destruct (export_to_parasut Samples.ledger_accepts 1700000600
              (Some Samples.completed_invoice)) as [stored [response | e]] eqn:Hrun;
    [| vm_compute in Hrun; discriminate].
  destruct (exported_invoice_is_final Samples.ledger_accepts Samples.ledger_accepts
              Samples.no_parse 1700000600 1700000700 _ stored response
              Samples.notes_correction Hrun) as [[detail Hagain] _].
  exists stored, detail. split; [reflexivity | exact Hagain].
Defined.

(** X18. When the ledger call fails, or its reply is not a JSON object, the
    export of a completed invoice with extracted data is answered 502 and
    the stored row stays as it is, still [completed] and not exported. *)
Theorem export_ledger_failure (send : Invoice -> exc json) (now : Z)
    (invoice : Invoice) :
  status invoice = COMPLETED ->
  no_extracted_data invoice = false ->
  ((exists e, send invoice = Err e) \/
   (exists v, send invoice = Ok v /\ forall m, v <> JObj m)) ->
  exists detail,
    export_to_parasut send now (Some invoice)
    = (Some invoice, Err (HTTPException 502 detail)).
Proof.
  intros Hst Hdata Hfail.
  assert (Hexp : exists e, ParasutClient.export_invoice send invoice = Err e).
  { unfold ParasutClient.export_invoice. rewrite Hdata.
    destruct Hfail as [[e He] | (v & Hv & Hshape)].
    - rewrite He. cbn. destruct e; eexists; reflexivity.
    - rewrite Hv. cbn [mbind exc_bind].
      destruct v; cbn; try (eexists; reflexivity).
      exfalso. eapply Hshape. reflexivity. }
  destruct Hexp as [e He].
  unfold export_to_parasut. rewrite Hst, Hdata, He. cbn.
  eexists. reflexivity.
Qed.

Lemma export_ledger_failure_witness :
  exists detail,
    export_to_parasut (fun _ => Err (RequestError "timeout")) 1700000600
      (Some Samples.completed_invoice)
    = (Some Samples.completed_invoice, Err (HTTPException 502 detail)).
Proof.
  apply (export_ledger_failure (fun _ => Err (RequestError "timeout")) 1700000600
           Samples.completed_invoice).
  - reflexivity.
  - vm_compute. reflexivity.
  - left. eexists. reflexivity.
Defined.

(** X19. [export_invoice] reads the ledger's id from [data.id] of the reply
    and does not insist on it: when the reply is an object whose [data] is
    absent or an object, the export succeeds, and the id it returns is
    [data.id], or null when [data] or [id] is missing. *)
Theorem export_invoice_reads_id (send : Invoice -> exc json) (invoice : Invoice)
    (reply : gmap string json) :
  no_extracted_data invoice = false ->
  send invoice = Ok (JObj reply) ->
  forall data : gmap string json,
    (reply !! "data" = None /\ data = ∅) \/ reply !! "data" = Some (JObj data) ->
    exists result,
      ParasutClient.export_invoice send invoice = Ok result /\
      result !! "parasut_invoice_id" = Some (default JNull (data !! "id")) /\
      result !! "success" = Some (JBool true) /\
      result !! "data" = Some (JObj reply).
Proof.
  intros Hdata Hsend data Hreply.
  unfold ParasutClient.export_invoice. rewrite Hdata, Hsend.
  cbn [mbind exc_bind get_of].
  assert (Hget : default (JObj ∅) (reply !! "data") = JObj data).
  { destruct Hreply as [[-> ->] | ->]; reflexivity. }
  rewrite Hget. cbn [mbind exc_bind get_of].
  eexists. split; [reflexivity |].
  split; [| split].
  - rewrite lookup_insert_ne by discriminate. apply lookup_insert_eq.
  - apply lookup_insert_eq.
  - rewrite !lookup_insert_ne by discriminate. apply lookup_insert_eq.
Qed.

Lemma export_invoice_reads_id_witness :
  exists result,
    ParasutClient.export_invoice (fun _ => Ok (JObj ∅)) Samples.completed_invoice
    = Ok result /\
    result !! "parasut_invoice_id" = Some JNull.
Proof.
  destruct (export_invoice_reads_id (fun _ => Ok (JObj ∅)) Samples.completed_invoice
              ∅ ltac:(vm_compute; reflexivity) eq_refl ∅)
    as (result & Hrun & Hid & _).
  - left. split; reflexivity.
  - exists result. split; [exact Hrun | exact Hid].
Defined.

End InvoiceGuards.

Section InvoiceUpdates.

Import Invoices.

Lemma not_exported (invoice : Invoice) :
  status invoice <> EXPORTED -> status_eqb (status invoice) EXPORTED = false.
Proof. destruct (status invoice); try reflexivity; congruence. Qed.





(** X22. A correction that carries both a subtotal and a tax rate (each with
    a true value) is never stored: the tax check calls a method the
    calculator does not have, the request is answered 500 and the stored
    invoice stays as it is. *)
Theorem update_with_tax_fields_fails (parse_decimal : string -> exc Q) (now : Z)
    (invoice : Invoice) (invoice_update : InvoiceUpdate)
    (extracted : gmap string json) :
  status invoice <> EXPORTED ->
  upd_extracted_data invoice_update = Some (Some extracted) ->
  truthy (get extracted "subtotal") = true ->
  truthy (get extracted "kdv_rate") = true ->
  exists detail,
    update_invoice parse_decimal now (Some invoice) invoice_update
    = (Some invoice, Err (HTTPException 500 detail)).
Proof.
  intros Hst Hupd Hsub Hrate.
  assert (Hdict : truthy (JObj extracted) = true).
  { unfold get in Hsub. cbn [truthy].
    destruct (map_to_list extracted) as [| kv l] eqn:E; [| reflexivity].
    apply map_to_list_empty_iff in E. subst extracted.
    rewrite lookup_empty in Hsub. discriminate. }
  unfold update_invoice.
  rewrite (not_exported _ Hst), Hupd, Hdict, Hsub, Hrate.
  unfold recheck_tax. rewrite calculate_kdv_undefined.
  cbn. eexists. reflexivity.
Qed.

Lemma update_with_tax_fields_fails_witness :
  exists detail,
    update_invoice Samples.no_parse 1700000600 (Some Samples.completed_invoice)
      {| upd_extracted_data :=
           Some (Some (<["subtotal" := JNum 100]> (<["kdv_rate" := JNum 20]> ∅)));
         upd_status := None |}
    = (Some Samples.completed_invoice, Err (HTTPException 500 detail)).
Proof.
  apply (update_with_tax_fields_fails Samples.no_parse 1700000600
           Samples.completed_invoice _
           (<["subtotal" := JNum 100]> (<["kdv_rate" := JNum 20]> ∅)));
    [discriminate | reflexivity | vm_compute; reflexivity | vm_compute; reflexivity].
Defined.

End InvoiceUpdates.

(** ** Tokens, requests and retries *)

Section LedgerSession.

Import ParasutHttp.

Variable redis_enabled : option bool.
Variable redis_up : bool.
Variable http : nat -> outcome.
Variable now : Q.

Lemma count_app (p : effect -> bool) (l1 l2 : list effect) :
  count p (l1 ++ l2) = (count p l1 + count p l2)%nat.
Proof. unfold count. rewrite List.filter_app, length_app. reflexivity. Qed.

(** What one run of the body of [_authenticate] adds to the log: cache
    accesses and at most one token request; and what it can raise. *)
Lemma authenticate_body_effects (s : state) :
  let run := authenticate_body redis_enabled redis_up http now s in
  (exists added,
     log (fst run) = log s ++ added /\
     (count is_token_post added <= 1)%nat /\
     count is_api_request added = 0%nat /\
     count is_wait added = 0%nat) /\
  snd run <> Raised TransportError /\
  entered (this (fst run)) = entered (this s).
Proof.
  intros run. subst run. unfold authenticate_body, _get_token_from_cache,
    _save_token_to_cache.
  assert (Hnil : exists added : list effect,
            log s = log s ++ added /\ (count is_token_post added <= 1)%nat /\
            count is_api_request added = 0%nat /\ count is_wait added = 0%nat).
  { exists []. rewrite app_nil_r. repeat split; cbn; lia. }
  assert (Hone : forall e, is_token_post e || is_api_request e || is_wait e = false ->
            exists added : list effect,
              log s ++ [e] = log s ++ added /\ (count is_token_post added <= 1)%nat /\
              count is_api_request added = 0%nat /\ count is_wait added = 0%nat).
  { intros e He. exists [e]. unfold count. cbn.
    destruct e; try discriminate He; repeat split; cbn; lia. }
  assert (Hlist : forall l, (count is_token_post l <= 1)%nat ->
            count is_api_request l = 0%nat -> count is_wait l = 0%nat ->
            forall l0, l0 = log s ++ l ->
            exists added : list effect,
              l0 = log s ++ added /\ (count is_token_post added <= 1)%nat /\
              count is_api_request added = 0%nat /\ count is_wait added = 0%nat).
  { intros l H1 H2 H3 l0 ->. exists l. repeat split; assumption. }
  destruct redis_enabled as [[|] |]; destruct redis_up;
    cbn [record this cache log with_client];
    repeat match goal with
           | |- context [if ?b then _ else _] => destruct b
           | |- context [match http ?n with _ => _ end] => destruct (http n)
           | |- context [match json_body ?r with _ => _ end] =>
               destruct (json_body r) as [[]|]
           | |- context [match ?m !! ?k with _ => _ end] => destruct (m !! k)
           | |- context [match seconds ?v with _ => _ end] => destruct (seconds v)
           end;
    cbn [fst snd record this cache log with_client entered];
    (split; [| split; [discriminate | reflexivity]]);
    first
      [ exact Hnil
      | apply (Hlist [CacheGet]); [cbn; lia | reflexivity | reflexivity | reflexivity]
      | apply (Hlist [TokenPost]); [cbn; lia | reflexivity | reflexivity | reflexivity]
      | apply (Hlist [CacheGet; TokenPost]);
          [cbn; lia | reflexivity | reflexivity | rewrite <- app_assoc; reflexivity]
      | eapply (Hlist [TokenPost; CacheSet _ _]);
          [cbn; lia | reflexivity | reflexivity | rewrite <- app_assoc; reflexivity]
      | eapply (Hlist [CacheGet; TokenPost; CacheSet _ _]);
          [cbn; lia | reflexivity | reflexivity | rewrite <- !app_assoc; reflexivity] ].
Qed.

Lemma authenticate_is_body (s : state) :
  _authenticate redis_enabled redis_up http now s
  = authenticate_body redis_enabled redis_up http now s.
Proof.
  destruct (authenticate_body_effects s) as (_ & Hnot & _).
  unfold _authenticate. cbn [retrying].
  destruct (authenticate_body redis_enabled redis_up http now s) as [s' [t | e]];
    [reflexivity |].
  destruct e; cbn [is_transport_error]; try reflexivity.
  contradiction Hnot. reflexivity.
Qed.

(** X23. The retry decorator of [_authenticate] never retries: the body
    turns a transport error into [ParasutAPIError] itself, so a call of
    [_authenticate] is one run of its body, sends at most one token
    request and never waits. *)
Theorem authenticate_never_retries (s : state) :
  let run := _authenticate redis_enabled redis_up http now s in
  run = authenticate_body redis_enabled redis_up http now s /\
  (snd run <> Raised TransportError /\
   forall e, snd run <> Raised (RetryError e)) /\
  exists added,
    log (fst run) = log s ++ added /\
    (count is_token_post added <= 1)%nat /\
    count is_api_request added = 0%nat /\
    count is_wait added = 0%nat.
Proof.
  intros run. subst run. rewrite authenticate_is_body.
  destruct (authenticate_body_effects s) as (Hlog & Hnot & _).
  split; [reflexivity |]. split; [| exact Hlog].
  split; [exact Hnot |].
  intros e He. revert He. clear.
  unfold authenticate_body, _get_token_from_cache, _save_token_to_cache.
  destruct redis_enabled as [[|] |]; destruct redis_up;
    cbn [record this cache log with_client];
    repeat match goal with
           | |- context [if ?b then _ else _] => destruct b
           | |- context [match http ?n with _ => _ end] => destruct (http n)
           | |- context [match json_body ?r with _ => _ end] =>
               destruct (json_body r) as [[]|]
           | |- context [match ?m !! ?k with _ => _ end] => destruct (m !! k)
           | |- context [match seconds ?v with _ => _ end] => destruct (seconds v)
           end;
    cbn [snd]; discriminate.
Qed.


(** X24. A token at hand is reused without a request.  A token found in the
    cache is returned and taken over, and its local expiry is set two hours
    ahead; otherwise a token of the client that is still good for more than
    five minutes is returned and the client stays as it is.  In both cases
    nothing is sent to the ledger. *)
Theorem authenticate_reuses_token (s : state) :
  let run := _authenticate redis_enabled redis_up http now s in
  (redis_enabled = Some true -> redis_up = true -> truthy (cache s) = true ->
   snd run = Returned (cache s) /\
   _token (this (fst run)) = cache s /\
   _token_expires_at (this (fst run)) = Some (now + 7200) /\
   count is_http (log (fst run)) = count is_http (log s)) /\
  (redis_enabled <> Some true \/ redis_up = false \/ truthy (cache s) = false ->
   _is_token_valid now (this s) = true ->
   snd run = Returned (_token (this s)) /\
   this (fst run) = this s /\
   count is_http (log (fst run)) = count is_http (log s)).
Proof.
  intros run. subst run. rewrite authenticate_is_body.
  unfold authenticate_body, _get_token_from_cache. split.
  - intros -> -> Hcached. cbn [record cache this log].
    rewrite Hcached. rewrite Hcached.
    cbn [fst snd with_client record this cache log _token _token_expires_at].
    repeat split. rewrite count_app. cbn. lia.
  - intros Hmiss Hvalid.
    destruct redis_enabled as [[|] |]; cbn [record cache this log truthy].
    + destruct Hmiss as [Hmiss | [-> | Hmiss]]; [contradiction Hmiss; reflexivity | |].
      * cbn [truthy]. change (this (record CacheGet s)) with (this s).
        rewrite Hvalid. cbn [fst snd record this cache log].
        repeat split. rewrite count_app. cbn. lia.
      * destruct redis_up; rewrite ?Hmiss; cbn [truthy];
          change (this (record CacheGet s)) with (this s);
          rewrite Hvalid; cbn [fst snd record this cache log];
          repeat split; rewrite count_app; cbn; lia.
    + rewrite Hvalid. repeat split.
    + rewrite Hvalid. repeat split.
Qed.


End LedgerSession.

Section LedgerRequests.

Import ParasutHttp.

Variable redis_enabled : option bool.
Variable redis_up : bool.
Variable http : nat -> outcome.
Variable now : Q.
Variables method endpoint : string.

(** One run of the body of [_make_request] adds at most one token request
    and one request to the log, and no wait. *)
Lemma make_request_body_effects (s : state) :
  let run := make_request_body redis_enabled redis_up http now method endpoint s in
  exists added,
    log (fst run) = log s ++ added /\
    (count is_token_post added <= 1)%nat /\
    (count is_api_request added <= 1)%nat /\
    count is_wait added = 0%nat.
Proof.
  intros run. subst run. unfold make_request_body.
  rewrite authenticate_is_body.
  destruct (authenticate_body_effects redis_enabled redis_up http now s)
    as ((added & Hlog & Ht & Ha & Hw) & _ & _).
  destruct (authenticate_body redis_enabled redis_up http now s) as [s1 [token | e]].
  - cbn [fst] in Hlog.
    assert (Hsame : exists added0, log s1 = log s ++ added0 /\
              (count is_token_post added0 <= 1)%nat /\
              (count is_api_request added0 <= 1)%nat /\ count is_wait added0 = 0%nat).
    { exists added. repeat split; try assumption. lia. }
    assert (Hmore : exists added0,
              log (record (ApiRequest method endpoint token) s1) = log s ++ added0 /\
              (count is_token_post added0 <= 1)%nat /\
              (count is_api_request added0 <= 1)%nat /\ count is_wait added0 = 0%nat).
    { exists (added ++ [ApiRequest method endpoint token]).
      cbn [record log]. rewrite Hlog, <- app_assoc, !count_app.
      repeat split; cbn; lia. }
    destruct (negb (entered (this s1))); [exact Hsame |].
    destruct (http (count is_http (log s1))) as [| r]; [exact Hmore |].
    destruct (status_code r =? 429)%Z;
      [destruct (retry_after r) as [[|] |]; exact Hmore |].
    destruct (raises_for_status r); [exact Hmore |].
    destruct (json_body r); exact Hmore.
  - cbn [fst] in Hlog. exists added. repeat split; try assumption. lia.
Qed.

(** What the decorator adds: with [n] attempts, at most [n] runs of the
    body and [n - 1] waits. *)
Lemma retrying_effects (retryable : failure -> bool)
    (body : state -> state * result json) :
  (forall s, exists added,
     log (fst (body s)) = log s ++ added /\
     (count is_token_post added <= 1)%nat /\
     (count is_api_request added <= 1)%nat /\
     count is_wait added = 0%nat) ->
  forall n s, exists added,
    log (fst (retrying (S n) retryable body s)) = log s ++ added /\
    (count is_token_post added <= S n)%nat /\
    (count is_api_request added <= S n)%nat /\
    (count is_wait added <= n)%nat.
Proof.
  intros Hbody. induction n as [| n IH]; intros s.
  - destruct (Hbody s) as (added & Hlog & Ht & Ha & Hw).
    exists added. cbn [retrying].
    destruct (body s) as [s' [v | e]]; [| destruct (retryable e)];
      cbn [fst] in *; repeat split; try assumption; lia.
  - destruct (Hbody s) as (added & Hlog & Ht & Ha & Hw).
    change (retrying (S (S n)) retryable body s)
      with (let '(s', r) := body s in
            match r with
            | Returned a => (s', Returned a)
            | Raised e =>
                if retryable e
                then retrying (S n) retryable body (record Wait s')
                else (s', Raised e)
            end).
    destruct (body s) as [s' [v | e]]; cbn [fst] in Hlog.
    + exists added. repeat split; try assumption; lia.
    + destruct (retryable e).
      * destruct (IH (record Wait s')) as (added' & Hlog' & Ht' & Ha' & Hw').
        exists (added ++ Wait :: added').
        rewrite Hlog'. cbn [record log]. rewrite Hlog, <- !app_assoc.
        split; [reflexivity |].
        rewrite !count_app.
        change (count is_token_post (Wait :: added')) with (count is_token_post added').
        change (count is_api_request (Wait :: added')) with (count is_api_request added').
        change (count is_wait (Wait :: added')) with (S (count is_wait added')).
        repeat split; lia.
      * exists added. repeat split; try assumption; lia.
Qed.

(** X26. Bounded requests: whatever the ledger answers, one call of
    [_make_request] sends at most three requests and at most three token
    requests, and waits at most twice. *)
Theorem make_request_budget (s : state) :
  let run := _make_request redis_enabled redis_up http now method endpoint s in
  exists added,
    log (fst run) = log s ++ added /\
    (count is_api_request added <= 3)%nat /\
    (count is_token_post added <= 3)%nat /\
    (count is_wait added <= 2)%nat.
Proof.
  intros run. subst run. unfold _make_request.
  destruct (retrying_effects is_retried_request_error
              (make_request_body redis_enabled redis_up http now method endpoint)
              make_request_body_effects 2 s)
    as (added & Hlog & Ht & Ha & Hw).
  exists added. repeat split; assumption.
Qed.

(** X27. An HTTP error other than 429 is not retried: when a token is at
    hand and the ledger answers the request with an error status that is
    not 429, [_make_request] has sent that one request, does not wait, and
    raises [ParasutAPIError] with the status and the JSON body of the
    answer, if it has one. *)
Theorem make_request_error_not_retried (s s1 : state) (token : json) (r : response) :
  _authenticate redis_enabled redis_up http now s = (s1, Returned token) ->
  entered (this s1) = true ->
  http (count is_http (log s1)) = Reply r ->
  status_code r <> 429%Z ->
  raises_for_status r = true ->
  _make_request redis_enabled redis_up http now method endpoint s
  = (record (ApiRequest method endpoint token) s1,
     Raised (APIError (Some (status_code r)) (json_body r))).
Proof.
  intros Hauth Hentered Hhttp Hstatus Herror.
  unfold _make_request. cbn [retrying]. unfold make_request_body.
  rewrite Hauth, Hentered, Hhttp. cbn [negb].
  apply Z.eqb_neq in Hstatus. rewrite Hstatus, Herror. reflexivity.
Qed.


(** X29. A client that was not opened sends nothing: when [_client] is not
    set, [_make_request] raises without any request and any token request
    having gone out. *)
Theorem make_request_client_not_entered (s : state) :
  entered (this s) = false ->
  let run := _make_request redis_enabled redis_up http now method endpoint s in
  count is_http (log (fst run)) = count is_http (log s) /\
  (snd run = Raised ClientNotEntered \/ snd run = Raised (APIError None None)).
Proof.
  intros Hclosed run. subst run.
  assert (Hauth : exists s1,
            (authenticate_body redis_enabled redis_up http now s
             = (s1, Raised (APIError None None)) \/
             exists token, authenticate_body redis_enabled redis_up http now s
                           = (s1, Returned token)) /\
            entered (this s1) = false /\
            count is_http (log s1) = count is_http (log s)).
  { unfold authenticate_body, _get_token_from_cache.
    destruct redis_enabled as [[|] |]; [destruct redis_up | |];
      cbn [record this cache log with_client];
      repeat match goal with
             | |- context [if truthy ?b then _ else _] => destruct (truthy b)
             | |- context [if _is_token_valid ?n ?c then _ else _] =>
                 destruct (_is_token_valid n c)
             end;
      cbn [record this cache log with_client entered];
      rewrite ?Hclosed; cbn [negb];
      eexists; (split; [first [left; reflexivity | right; eexists; reflexivity] |]);
      cbn [entered this with_client record log]; rewrite ?count_app;
      (split; [first [exact Hclosed | reflexivity] | cbn; lia]). }
  destruct Hauth as (s1 & Hrun & Hclosed1 & Hcount).
  unfold _make_request. cbn [retrying]. unfold make_request_body.
  rewrite authenticate_is_body.
  destruct Hrun as [-> | [token ->]].
  - cbn. split; [exact Hcount | right; reflexivity].
  - rewrite Hclosed1. cbn. split; [exact Hcount | left; reflexivity].
Qed.

End LedgerRequests.

Section LedgerExamples.

Import ParasutHttp LedgerSamples.


Lemma make_request_error_not_retried_witness :
  snd (_make_request None false (fun _ => Reply unprocessable) 0
         "POST" "sales_invoices" (start signed_in_client))
  = Raised (APIError (Some 422%Z) (json_body unprocessable)).
Proof.
  rewrite (make_request_error_not_retried None false (fun _ => Reply unprocessable) 0
             "POST" "sales_invoices" (start signed_in_client)
             (start signed_in_client) (JStr "tok") unprocessable);
    [reflexivity | reflexivity | reflexivity | reflexivity | discriminate
    | reflexivity].
Defined.


Lemma make_request_client_not_entered_witness :
  count is_http
    (log (fst (_make_request None false (fun _ => Reply token_reply) 0
                 "POST" "sales_invoices" (start closed_client)))) = 0%nat.
Proof.
  apply (make_request_client_not_entered None false (fun _ => Reply token_reply) 0
           "POST" "sales_invoices" (start closed_client)).
  reflexivity.
Defined.

End LedgerExamples.

(** ** The degraded path of the extraction *)

Section DegradedPath.

Import AIExtractionService Trace Fallback.

(** X30. [extract_with_fallback] never blocks the pipeline: it returns a
    result after at most three requests to the language model; the result
    asks for review exactly when the extraction failed; a success carries
    the record [extract_invoice_data] returned, and a failure carries the
    blank record (no line items, zero totals) with low confidence.  On a
    blank text it fails without any request. *)
Theorem fallback_never_blocks (language_model : nat -> reply) (ocr_text : pystr) :
  let run := extract_with_fallback language_model ocr_text in
  let res := snd run in
  requires_review res = negb (success res) /\
  (model_calls (fst run) <= 3)%nat /\
  (success res = true <->
   exists d, snd (extract_invoice_data language_model ocr_text 2) = Ok d /\
             data res = d /\ confidence res = "high"%string) /\
  (success res = false ->
   data res = blank_data /\ confidence res = "low"%string) /\
  (forallb isspace ocr_text = true -> success res = false /\ fst run = []).
Proof.
  intros run res. subst res run. unfold extract_with_fallback.
  assert (Hcalls : (model_calls (fst (extract_invoice_data language_model ocr_text 2))
                    <= 3)%nat).
  { unfold extract_invoice_data.
    destruct (negb (truthy_str ocr_text) || negb (truthy_str (strip ocr_text)));
      [cbn; lia |].
    destruct (attempts_trace language_model 2 (seq 0 (Z.to_nat (2 + 1)))
                [BuildSystemPrompt; BuildUserPrompt ocr_text])
      as (rest & Hrun & _ & Hcalls & _).
    rewrite Hrun, model_calls_app. rewrite length_seq in Hcalls. cbn in *. lia. }
  assert (Hblank : forallb isspace ocr_text = true ->
            extract_invoice_data language_model ocr_text 2
            = ([], Err (ValueError "OCR text is empty"))).
  { intros H. unfold extract_invoice_data.
    rewrite (strip_blank ocr_text H). cbn [truthy_str negb].
    rewrite orb_true_r. reflexivity. }
  destruct (extract_invoice_data language_model ocr_text 2) as [trace [d | e]].
  - cbn [fst snd success data confidence requires_review negb] in *.
    split; [reflexivity |]. split; [exact Hcalls |]. split; [| split].
    + split; [intros _; exists d; repeat split | reflexivity].
    + discriminate.
    + intros H. specialize (Hblank H). discriminate.
  - cbn [fst snd success data confidence requires_review negb] in *.
    split; [reflexivity |]. split; [exact Hcalls |]. split; [| split].
    + split; [discriminate | intros (d & H & _); discriminate].
    + intros _. split; reflexivity.
    + intros H. specialize (Hblank H). injection Hblank as -> _.
      split; reflexivity.
Qed.

End DegradedPath.
